(** * django_comments_xtd.views: comment confirmation and follow-up notification

    A shallow embedding of [src/django_comments_xtd/views.py].  The views are
    glue code over Django's ORM, signal bus, mail and template layers, so the
    embedding threads an explicit [World] (the persisted [XtdComment] rows, the
    primary-key sequence, the mail outbox and the log of signals sent) through
    a state-and-exception monad, and takes the framework collaborators
    (settings, [signed], [reverse], the template loader, [get_model], the
    signal receivers) as an environment record. *)

From Stdlib Require Import Ascii String.
From stdpp Require Import base option list strings gmap fin_maps.

Open Scope Z_scope.
Open Scope string_scope.
Open Scope list_scope.

(** ** Data model *)

(** [django.contrib.auth] user as far as the views look at it: the object is
    truthy, and [is_authenticated()] answers with a boolean. *)
Record User := mkUser {
  user_pk : Z;
  is_authenticated : bool
}.

Record ContentType := mkContentType {
  app_label : string;
  model : string
}.

(** Modelled from the spec: [models.py] (TmpXtdComment, XtdComment) is not part
    of the sources.  [TmpXtdComment] is the dictionary of comment fields that
    is signed into the confirmation key and later expanded into the keyword
    arguments of the [XtdComment] constructor; the fields are those of
    Django's comment model plus [followup], and the views read [user], [user_name], [user_email],
    [submit_date], [content_type], [object_pk], [is_public] and [followup]. *)
Record TmpXtdComment := mkTmp {
  user : option User;
  user_name : string;
  user_email : string;
  user_url : string;
  comment_text : string;
  submit_date : Z;
  content_type : ContentType;
  object_pk : string;
  site_id : Z;
  ip_address : string;
  is_public : bool;
  is_removed : bool;
  followup : bool
}.

(** Modelled from the spec: an [XtdComment] instance is the same fields plus
    the primary key, which is [None] until the instance is saved. *)
Record XtdComment := mkXtd {
  id : option Z;
  fields : TmpXtdComment
}.

Definition set_is_public (v : bool) (c : TmpXtdComment) : TmpXtdComment :=
  {| user := user c; user_name := user_name c; user_email := user_email c;
     user_url := user_url c; comment_text := comment_text c;
     submit_date := submit_date c; content_type := content_type c;
     object_pk := object_pk c; site_id := site_id c;
     ip_address := ip_address c; is_public := v;
     is_removed := is_removed c; followup := followup c |}.

Record Site := mkSite {
  domain : string;
  site_name : string
}.

Record Request := mkRequest {
  POST : gmap string string;
  GET : gmap string string
}.

(** A message handed to the mail layer ([EmailMultiAlternatives] or
    [send_mail]). *)
Record Email := mkEmail {
  subject : string;
  body : string;
  from_email : string;
  recipients : list string;
  alternatives : list (string * string)
}.

Inductive Exception :=
| Http404
| ValueError
| BadSignature
| KeyError (key : string)
| AttributeError
| DoesNotExist
| OtherError (msg : string).

(** Values a signal receiver may answer with, and Python's [==] against
    [False] on them ([0 == False] holds in Python). *)
Inductive PyVal :=
| PyNone
| PyBool (b : bool)
| PyInt (n : Z)
| PyStr (s : string).

Definition py_eq_False (v : PyVal) : bool :=
  match v with
  | PyBool b => negb b
  | PyInt n => bool_decide (n = 0)
  | PyNone | PyStr _ => false
  end.

(** A receiver connected to [confirmation_received].  Receivers are code
    outside the module: the model keeps what each answers (or raises) and
    leaves whatever else they do out of the [World]. *)
Record Receiver := mkReceiver {
  receiver_name : string;
  receiver_call : TmpXtdComment → Request → Exception + PyVal
}.

(** ** The world the views act on *)

Record World := mkWorld {
  db : list XtdComment;
  next_id : Z;
  outbox : list Email;
  signals_sent : list (TmpXtdComment * Request)
}.

Definition with_db (rows : list XtdComment) (n : Z) (w : World) : World :=
  {| db := rows; next_id := n; outbox := outbox w;
     signals_sent := signals_sent w |}.

Definition with_outbox (o : list Email) (w : World) : World :=
  {| db := db w; next_id := next_id w; outbox := o;
     signals_sent := signals_sent w |}.

Definition with_signals (s : list (TmpXtdComment * Request)) (w : World) : World :=
  {| db := db w; next_id := next_id w; outbox := outbox w;
     signals_sent := s |}.

(** ** State and exception monad *)

Definition M (A : Type) : Type := World → (Exception + A) * World.

Definition ret {A} (a : A) : M A := λ w, (inr a, w).

Definition raise {A} (e : Exception) : M A := λ w, (inl e, w).

Definition bind {A B} (m : M A) (k : A → M B) : M B :=
  λ w, match m w with
       | (inl e, w') => (inl e, w')
       | (inr a, w') => k a w'
       end.

Definition lift {A} (r : Exception + A) : M A :=
  match r with
  | inl e => raise e
  | inr a => ret a
  end.

Definition gets {A} (f : World → A) : M A := λ w, (inr (f w), w).

Definition modify (f : World → World) : M unit := λ w, (inr tt, f w).

Declare Scope views_scope.
Delimit Scope views_scope with views.
Notation "x <- m ;; k" := (bind m (λ x, k))
  (at level 100, m at next level, right associativity) : views_scope.
Notation "m ;;; k" := (bind m (λ _, k))
  (at level 100, right associativity) : views_scope.
Open Scope views_scope.

(** A Python [for] loop whose body is a statement. *)
Fixpoint foreach {A} (l : list A) (body : A → M unit) : M unit :=
  match l with
  | [] => ret tt
  | x :: rest => body x ;;; foreach rest body
  end.

(** ** Framework collaborators *)

(** Python's [str.split] with a one-character separator. *)
Fixpoint split (sep : Ascii.ascii) (s : string) : list string :=
  match s with
  | EmptyString => [EmptyString]
  | String c rest =>
      if Ascii.eqb c sep then EmptyString :: split sep rest
      else match split sep rest with
           | [] => [String c EmptyString]
           | h :: t => String c h :: t
           end
  end.

Section Views.

Context {Model Target : Type}.

(** What a template is rendered with: the two dictionaries the views build. *)
Inductive Context :=
| ConfirmationContext (comment : TmpXtdComment) (content_object : Target)
    (confirmation_url contact : string) (site : Site)
| FollowupContext (name : string) (comment : XtdComment)
    (content_object : Target) (site : Site).

Inductive HttpResponse :=
| RenderedResponse (template : string) (comment : TmpXtdComment) (request : Request)
| RedirectResponse (to : XtdComment).

(** Settings and the framework functions the module calls.  They are external
    to the module: the ORM lookups and [signed.loads] may raise, the others
    are taken to return. *)
Record Env := mkEnv {
  COMMENTS_XTD_SALT : string;
  COMMENTS_XTD_CONFIRM_EMAIL : bool;
  DEFAULT_FROM_EMAIL : string;
  get_current_site : Site;
  ugettext_lazy : string → string;
  reverse : string → list string → string;
  render : string → Context → string;
  signed_dumps : TmpXtdComment → bool → string → string;
  signed_loads : string → string → Exception + TmpXtdComment;
  get_model : list string → Exception + option Model;
  manager_get : Model → string → Exception + Target;
  confirmation_received_receivers : list Receiver
}.

Variable E : Env.

(** [message.send()] / [send_mail]: the message joins the outbox. *)
Definition send (m : Email) : M unit :=
  modify (λ w, with_outbox (outbox w ++ [m]) w).

Definition send_mail (subj message from : string) (to : list string) : M unit :=
  send {| subject := subj; body := message; from_email := from;
          recipients := to; alternatives := [] |}.

(** [request.POST[k]]: a missing key raises. *)
Definition POST_getitem (request : Request) (k : string) : M string :=
  match POST request !! k with
  | Some v => ret v
  | None => raise (KeyError k)
  end.

(** [model._default_manager.get(pk=...)], where [model] is what [get_model]
    answered: on [None] the attribute access raises. *)
Definition default_manager_get (m : option Model) (pk : string) : M Target :=
  match m with
  | Some cls => lift (manager_get E cls pk)
  | None => raise AttributeError
  end.

(** [XtdComment.objects.filter(...)] evaluated against the persisted rows. *)
Definition objects_filter (p : XtdComment → bool) : M (list XtdComment) :=
  gets (λ w, List.filter p (db w)).

(** [instance.save()]: an unsaved instance is inserted under the next primary
    key; a saved one replaces the row with its key, or is inserted when there
    is none. *)
Definition save (c : XtdComment) : M XtdComment :=
  λ w, match id c with
       | None =>
           let c' := {| id := Some (next_id w); fields := fields c |} in
           (inr c', with_db (db w ++ [c']) (next_id w + 1) w)
       | Some k =>
           if existsb (λ r, bool_decide (id r = Some k)) (db w)
           then (inr c, with_db (map (λ r, if bool_decide (id r = Some k)
                                           then c else r) (db w))
                                (next_id w) w)
           else (inr c, with_db (db w ++ [c]) (next_id w) w)
       end.

(** [signals.confirmation_received.send(...)]: every receiver is called in
    turn and the (receiver, response) pairs are returned; a receiver that
    raises ends the dispatch with its exception. *)
Fixpoint call_receivers (rs : list Receiver) (c : TmpXtdComment) (request : Request)
  : Exception + list (string * PyVal) :=
  match rs with
  | [] => inr []
  | r :: rest =>
      match receiver_call r c request with
      | inl e => inl e
      | inr v =>
          match call_receivers rest c request with
          | inl e => inl e
          | inr vs => inr ((receiver_name r, v) :: vs)
          end
      end
  end.

Definition confirmation_received_send (c : TmpXtdComment) (request : Request)
  : M (list (string * PyVal)) :=
  modify (λ w, with_signals (signals_sent w ++ [(c, request)]) w) ;;;
  lift (call_receivers (confirmation_received_receivers E) c request).

(** ** views.py *)

Definition send_email_confirmation_request
    (comment : TmpXtdComment) (target : Target) (key : string)
    (text_template html_template : string) : M unit :=
  let subject_ := ugettext_lazy E "comment confirmation request" in
  let confirmation_url := reverse E "comments-xtd-confirm" [key] in
  let text_message_context :=
    ConfirmationContext comment target confirmation_url
      (DEFAULT_FROM_EMAIL E) (get_current_site E) in
  let text_message := render E text_template text_message_context in
  let html_message_context :=
    ConfirmationContext comment target confirmation_url
      (DEFAULT_FROM_EMAIL E) (get_current_site E) in
  let html_message := render E html_template html_message_context in
  let message :=
    {| subject := subject_; body := text_message;
       from_email := DEFAULT_FROM_EMAIL E;
       recipients := [user_email comment];
       alternatives := [] |} in
  let message :=
    {| subject := subject message; body := body message;
       from_email := from_email message; recipients := recipients message;
       alternatives := alternatives message ++ [(html_message, "text/html")] |} in
  send message.

Definition _comment_exists (comment : TmpXtdComment) : M bool :=
  rows <- objects_filter (λ r,
            bool_decide (user_name (fields r) = user_name comment)
            && bool_decide (user_email (fields r) = user_email comment)
            && bool_decide (submit_date (fields r) = submit_date comment)) ;;
  ret (bool_decide (0 < length rows)%nat).

Definition _create_comment (tmp_comment : TmpXtdComment) : M XtdComment :=
  let comment := {| id := None; fields := tmp_comment |} in
  let comment := {| id := id comment; fields := set_is_public true (fields comment) |} in
  save comment.

(** The selected rows are taken in the order the table holds them.  The
    ordering of the queryset only decides which [user_name] stays in
    [followers] for an address that used several; the properties below do not
    depend on it. *)
Definition notify_comment_followers (comment : XtdComment) : M unit :=
  let followers : gmap string string := ∅ in
  previous_comments <- objects_filter (λ r,
      bool_decide (object_pk (fields r) = object_pk (fields comment))
      && bool_decide (is_public (fields r) = true)
      && bool_decide (followup (fields r) = true)
      && negb (bool_decide (id r = id comment))) ;;
  let followers :=
    foldl (λ d instance, <[user_email (fields instance) := user_name (fields instance)]> d)
          followers previous_comments in
  model_ <- lift (get_model E [app_label (content_type (fields comment));
                               model (content_type (fields comment))]) ;;
  target <- default_manager_get model_ (object_pk (fields comment)) ;;
  let subject_ := ugettext_lazy E "new comment posted" in
  foreach (map_to_list followers) (λ '(email, name),
    let message_context :=
      FollowupContext name comment target (get_current_site E) in
    let message :=
      render E "django_comments_xtd/email_followup_comment.txt" message_context in
    send_mail subject_ message (DEFAULT_FROM_EMAIL E) [email]).

(** The handler returns what it leaves in [comment.xtd_comment]. *)
Definition on_comment_was_posted (comment : TmpXtdComment) (request : Request)
  : M (option XtdComment) :=
  if (match user comment with
      | Some u => is_authenticated u
      | None => false
      end) || negb (COMMENTS_XTD_CONFIRM_EMAIL E)
  then
    exists_ <- _comment_exists comment ;;
    if negb exists_ then
      new_comment <- _create_comment comment ;;
      notify_comment_followers new_comment ;;;
      ret (Some new_comment)
    else ret None
  else
    ctype <- POST_getitem request "content_type" ;;
    object_pk_ <- POST_getitem request "object_pk" ;;
    model_ <- lift (get_model E (split "."%char ctype)) ;;
    target <- default_manager_get model_ object_pk_ ;;
    let key := signed_dumps E comment true (COMMENTS_XTD_SALT E) in
    send_email_confirmation_request comment target key
      "django_comments_xtd/email_confirmation_request.txt"
      "django_comments_xtd/email_confirmation_request.html" ;;;
    ret None.

(** The loop over the responses: the first one equal to [False] discards. *)
Fixpoint discarded (responses : list (string * PyVal)) : bool :=
  match responses with
  | [] => false
  | (receiver, response) :: rest =>
      if py_eq_False response then true else discarded rest
  end.

Definition confirm (request : Request) (key template_discarded : string)
  : M HttpResponse :=
  tmp_comment <-
    match signed_loads E key (COMMENTS_XTD_SALT E) with
    | inr c => ret c
    | inl ValueError | inl BadSignature => raise Http404
    | inl e => raise e
    end ;;
  exists_ <- _comment_exists tmp_comment ;;
  if exists_ then raise Http404 else
  responses <- confirmation_received_send tmp_comment request ;;
  if discarded responses
  then ret (RenderedResponse template_discarded tmp_comment request)
  else
    comment <- _create_comment tmp_comment ;;
    notify_comment_followers comment ;;;
    ret (RedirectResponse comment).

End Views.

(** ** A small site to run the views on *)

Definition demo_site : Site := {| domain := "example.com"; site_name := "example" |}.

Definition blog_entry : ContentType := {| app_label := "blog"; model := "entry" |}.

Definition alice_tmp : TmpXtdComment :=
  {| user := None; user_name := "alice"; user_email := "alice@example.com";
     user_url := ""; comment_text := "first"; submit_date := 1000;
     content_type := blog_entry; object_pk := "1"; site_id := 1;
     ip_address := "10.0.0.1"; is_public := false; is_removed := false;
     followup := true |}.

Definition bob_tmp : TmpXtdComment :=
  {| user := None; user_name := "bob"; user_email := "bob@example.com";
     user_url := ""; comment_text := "second"; submit_date := 2000;
     content_type := blog_entry; object_pk := "1"; site_id := 1;
     ip_address := "10.0.0.2"; is_public := false; is_removed := false;
     followup := false |}.

Definition carol_tmp : TmpXtdComment :=
  {| user := Some {| user_pk := 7; is_authenticated := true |};
     user_name := "carol"; user_email := "carol@example.com";
     user_url := ""; comment_text := "third"; submit_date := 3000;
     content_type := blog_entry; object_pk := "1"; site_id := 1;
     ip_address := "10.0.0.3"; is_public := false; is_removed := false;
     followup := true |}.

Definition alice_row : XtdComment :=
  {| id := Some 1; fields := set_is_public true alice_tmp |}.

Definition bob_row : XtdComment :=
  {| id := Some 2; fields := set_is_public true bob_tmp |}.

Definition demo_world : World :=
  {| db := [alice_row; bob_row]; next_id := 3; outbox := []; signals_sent := [] |}.

Definition empty_world : World :=
  {| db := []; next_id := 1; outbox := []; signals_sent := [] |}.

Definition demo_request : Request :=
  {| POST := <["content_type" := "blog.entry"]> (<["object_pk" := "1"]> ∅);
     GET := ∅ |}.

(** The confirmation key of the demo site is the submitter's name; only
    ["carol"] and ["alice"] are valid keys. *)
Definition demo_loads (key salt : string) : Exception + TmpXtdComment :=
  if bool_decide (key = "carol") then inr carol_tmp
  else if bool_decide (key = "alice") then inr alice_tmp
  else if bool_decide (key = "") then inl ValueError
  else inl BadSignature.

Definition demo_get_model (args : list string) : Exception + option string :=
  match args with
  | [a; m] => if bool_decide (a = "blog") then inr (Some m) else inr None
  | _ => inl (OtherError "TypeError")
  end.

Definition demo_manager_get (cls pk : string) : Exception + string :=
  if bool_decide (pk = "1") then inr (cls +:+ "#" +:+ pk) else inl DoesNotExist.

Definition demo_env (confirm_email : bool) (receivers : list Receiver)
  : @Env string string :=
  {| COMMENTS_XTD_SALT := "salt";
     COMMENTS_XTD_CONFIRM_EMAIL := confirm_email;
     DEFAULT_FROM_EMAIL := "webmaster@example.com";
     get_current_site := demo_site;
     ugettext_lazy := λ s, s;
     reverse := λ name args, "/comments/confirm/" +:+ String.concat "/" args;
     render := λ template ctx,
       match ctx with
       | ConfirmationContext _ _ url _ _ => template +:+ " " +:+ url
       | FollowupContext name _ target _ => template +:+ " " +:+ name +:+ " " +:+ target
       end;
     signed_dumps := λ c compress salt, user_name c;
     signed_loads := demo_loads;
     get_model := demo_get_model;
     manager_get := demo_manager_get;
     confirmation_received_receivers := receivers |}.

Definition accepting : Receiver :=
  {| receiver_name := "accepting"; receiver_call := λ _ _, inr PyNone |}.

Definition rejecting : Receiver :=
  {| receiver_name := "rejecting"; receiver_call := λ _ _, inr (PyBool false) |}.

Definition discarded_template : string := "django_comments_xtd/discarded.html".

(** ** Vocabulary of the properties *)

(** The deduplication key: a persisted row carries the submitter name, the
    submitter e-mail and the submission date of the comment. *)
Definition same_dedup_key (r : XtdComment) (c : TmpXtdComment) : Prop :=
  user_name (fields r) = user_name c
  ∧ user_email (fields r) = user_email c
  ∧ submit_date (fields r) = submit_date c.

Definition already_exists (c : TmpXtdComment) (w : World) : Prop :=
  ∃ r, r ∈ db w ∧ same_dedup_key r c.

#[global] Instance same_dedup_key_dec (r : XtdComment) (c : TmpXtdComment) :
  Decision (same_dedup_key r c).
Proof. unfold same_dedup_key. apply _. Defined.

#[global] Instance already_exists_dec (c : TmpXtdComment) (w : World) :
  Decision (already_exists c w).
Proof.
  refine (cast_if (decide (Exists (λ r, same_dedup_key r c) (db w))));
    unfold already_exists; by rewrite <- Exists_exists.
Defined.

(** The row [_create_comment] persists for [c] in world [w]. *)
Definition created_row (c : TmpXtdComment) (w : World) : XtdComment :=
  {| id := Some (next_id w); fields := set_is_public true c |}.

Definition world_after_create (c : TmpXtdComment) (w : World) : World :=
  with_db (db w ++ [created_row c w]) (next_id w + 1) w.

(** A row the follow-up query of [notify_comment_followers] selects for
    [comment]: same [object_pk], public, follow-up requested, and not the
    comment itself. *)
Definition prior_follower (comment r : XtdComment) : Prop :=
  object_pk (fields r) = object_pk (fields comment)
  ∧ is_public (fields r) = true
  ∧ followup (fields r) = true
  ∧ id r ≠ id comment.

Definition follower_address (comment : XtdComment) (w : World) (e : string) : Prop :=
  ∃ r, r ∈ db w ∧ prior_follower comment r ∧ user_email (fields r) = e.

#[global] Instance prior_follower_dec (comment r : XtdComment) :
  Decision (prior_follower comment r).
Proof. unfold prior_follower. apply _. Defined.

#[global] Instance follower_address_dec (comment : XtdComment) (w : World) (e : string) :
  Decision (follower_address comment w e).
Proof.
  refine (cast_if (decide (Exists (λ r, prior_follower comment r
                                        ∧ user_email (fields r) = e) (db w))));
    unfold follower_address; by rewrite <- Exists_exists.
Defined.

(** Number of messages of [ms] addressed to [e] alone. *)
Definition mails_to (e : string) (ms : list Email) : nat :=
  length (List.filter (λ m, bool_decide (recipients m = [e])) ms).

Definition followup_email {Model Target} (E : @Env Model Target)
    (comment : XtdComment) (target : Target) (to : string * string) : Email :=
  {| subject := ugettext_lazy E "new comment posted";
     body := render E "django_comments_xtd/email_followup_comment.txt"
               (FollowupContext to.2 comment target (get_current_site E));
     from_email := DEFAULT_FROM_EMAIL E;
     recipients := [to.1];
     alternatives := [] |}.

(** The dictionary [followers] as [notify_comment_followers] has filled it
    when its first loop ends. *)
Definition followers_of (comment : XtdComment) (w : World) : gmap string string :=
  foldl (λ d i, <[user_email (fields i) := user_name (fields i)]> d) ∅
    (List.filter (λ r,
       bool_decide (object_pk (fields r) = object_pk (fields comment))
       && bool_decide (is_public (fields r) = true)
       && bool_decide (followup (fields r) = true)
       && negb (bool_decide (id r = id comment))) (db w)).

(** The condition under which [on_comment_was_posted] posts at once: the
    comment's user is set and authenticated, or confirmation by e-mail is
    switched off. *)
Definition authenticated_or_unconfirmed {Model Target} (E : @Env Model Target)
    (c : TmpXtdComment) : Prop :=
  (∃ u, user c = Some u ∧ is_authenticated u = true)
  ∨ COMMENTS_XTD_CONFIRM_EMAIL E = false.

(** The object a held comment was posted on, as the hold branch of
    [on_comment_was_posted] looks it up from the request. *)
Definition posted_target {Model Target} (E : @Env Model Target)
    (request : Request) : Exception + Target :=
  match POST request !! "content_type" with
  | None => inl (KeyError "content_type")
  | Some ctype =>
      match POST request !! "object_pk" with
      | None => inl (KeyError "object_pk")
      | Some pk =>
          match get_model E (split "."%char ctype) with
          | inl e => inl e
          | inr None => inl AttributeError
          | inr (Some cls) => manager_get E cls pk
          end
      end
  end.

(** The confirmation URL mailed for a held comment: the route
    [comments-xtd-confirm] applied to the signed key of the comment. *)
Definition confirmation_url_of {Model Target} (E : @Env Model Target)
    (c : TmpXtdComment) : string :=
  reverse E "comments-xtd-confirm" [signed_dumps E c true (COMMENTS_XTD_SALT E)].

(** The message [send_email_confirmation_request] sends for a held comment. *)
Definition confirmation_email {Model Target} (E : @Env Model Target)
    (c : TmpXtdComment) (target : Target) : Email :=
  let ctx := ConfirmationContext c target (confirmation_url_of E c)
               (DEFAULT_FROM_EMAIL E) (get_current_site E) in
  {| subject := ugettext_lazy E "comment confirmation request";
     body := render E "django_comments_xtd/email_confirmation_request.txt" ctx;
     from_email := DEFAULT_FROM_EMAIL E;
     recipients := [user_email c];
     alternatives :=
       [(render E "django_comments_xtd/email_confirmation_request.html" ctx,
         "text/html")] |}.

(** The world once [confirmation_received] has been sent for [c]. *)
Definition world_after_signal (c : TmpXtdComment) (request : Request) (w : World) : World :=
  with_signals (signals_sent w ++ [(c, request)]) w.

(** ** The [confirmation_requested] view *)

(** [try: ... except ...:] around a computation: [handler] answers what the
    matching [except] clause runs, or [None] when no clause matches and the
    exception goes on. *)
Definition try_except {A} (m : M A) (handler : Exception → option (M A)) : M A :=
  λ w, match m w with
       | (inl e, w') =>
           match handler e with
           | Some h => h w'
           | None => (inl e, w')
           end
       | (inr a, w') => (inr a, w')
       end.

Inductive RequestedResponse :=
| HttpResponseRedirect (url : string)
| TemplateResponse (template : string) (request : Request).

Section ConfirmationRequested.

(** What the field and the database backend make of the text given as
    primary key: the integer key to look up, or the exception they raise
    ([ValueError] on text that is no integer, [OverflowError] or a database
    error on an integer the key column cannot hold); and
    [XtdComment.get_absolute_url].  Both are outside the module. *)
Variable to_python : string → Exception + Z.
Variable get_absolute_url : XtdComment → string.

(** [XtdComment.objects.get(pk=value)]. *)
Definition objects_get (value : string) : M XtdComment :=
  match to_python value with
  | inl e => raise e
  | inr k =>
      rows <- objects_filter (λ r, bool_decide (id r = Some k)) ;;
      match rows with
      | [] => raise DoesNotExist
      | [r] => ret r
      | _ => raise (OtherError "MultipleObjectsReturned")
      end
  end.

(** [request.GET[k]]. *)
Definition GET_getitem (request : Request) (k : string) : M string :=
  match GET request !! k with
  | Some v => ret v
  | None => raise (KeyError k)
  end.

Definition confirmation_requested (request : Request) (template : string)
  : M RequestedResponse :=
  let comment : option XtdComment := None in
  comment <-
    (if negb (bool_decide (default "" (GET request !! "c") = ""))
     then
       try_except
         (c <- GET_getitem request "c" ;;
          found <- objects_get c ;;
          ret (Some found))
         (λ e, match e with
               | DoesNotExist | ValueError => Some (ret comment)
               | _ => None
               end)
     else ret comment) ;;
  match comment with
  | Some c => ret (HttpResponseRedirect (get_absolute_url c))
  | None => ret (TemplateResponse template request)
  end.

End ConfirmationRequested.

(** The demo site converts the decimal keys it has handed out and refuses
    the first integer past its 64-bit key column. *)
Definition demo_to_python (s : string) : Exception + Z :=
  if bool_decide (s = "1") then inr 1
  else if bool_decide (s = "2") then inr 2
  else if bool_decide (s = "3") then inr 3
  else if bool_decide (s = "9223372036854775808") then inl (OtherError "OverflowError")
  else inl ValueError.

Definition demo_absolute_url (c : XtdComment) : string :=
  "/comments/cr/" +:+ object_pk (fields c) +:+ "/#c" +:+ user_name (fields c).

Definition requested_template : string :=
  "django_comments_xtd/confirmation_requested.html".

(** ** Primary keys *)

(** A saved row: it has a primary key, and the key sequence is past it. *)
Definition pk_below (n : Z) (r : XtdComment) : Prop :=
  match id r with
  | Some k => k < n
  | None => False
  end.

#[global] Instance pk_below_dec (n : Z) (r : XtdComment) : Decision (pk_below n r).
Proof. unfold pk_below. destruct (id r); apply _. Defined.

(** The table as a database keeps it: primary keys are unique and all were
    drawn from the sequence. *)
Definition pks_fresh (w : World) : Prop :=
  NoDup (id <$> db w) ∧ Forall (pk_below (next_id w)) (db w).

#[global] Instance pks_fresh_dec (w : World) : Decision (pks_fresh w).
Proof. unfold pks_fresh. apply _. Defined.

(** A row persisted for the object [c] is posted on that is public and asked
    for follow-up. *)
Definition follows_thread (c : TmpXtdComment) (r : XtdComment) : Prop :=
  object_pk (fields r) = object_pk c
  ∧ is_public (fields r) = true
  ∧ followup (fields r) = true.

#[global] Instance follows_thread_dec (c : TmpXtdComment) (r : XtdComment) :
  Decision (follows_thread c r).
Proof. unfold follows_thread. apply _. Defined.

(** The object a comment is attached to, as [notify_comment_followers] looks
    it up from the comment's content type and [object_pk]. *)
Definition comment_target {Model Target} (E : @Env Model Target)
    (c : TmpXtdComment) : Exception + Target :=
  match get_model E [app_label (content_type c); model (content_type c)] with
  | inl e => inl e
  | inr None => inl AttributeError
  | inr (Some cls) => manager_get E cls (object_pk c)
  end.

(** What the publish path does: a comment that already exists leaves
    everything as it was; any other one is persisted as a new row, after which
    either the commented object does not resolve and that exception comes out,
    or the new row is handed back and only follow-ups about it have joined the
    outbox. *)
Definition publish_path_taken {Model Target} (E : @Env Model Target)
    (c : TmpXtdComment) (w : World)
    (r : (Exception + option XtdComment) * World) : Prop :=
  (already_exists c w ∧ r = (inr None, w))
  ∨ (¬ already_exists c w
     ∧ db r.2 = db w ++ [created_row c w]
     ∧ match comment_target E c with
       | inl e => r = (inl e, world_after_create c w)
       | inr target =>
           ∃ mails,
             r = (inr (Some (created_row c w)),
                  with_outbox (outbox w ++ mails) (world_after_create c w))
             ∧ ∀ m, m ∈ mails →
                 ∃ to, m = followup_email E (created_row c w) target to
       end).

(** What the hold path does: nothing is persisted; when the commented object
    is found from the request, the confirmation request for the comment is
    mailed and nothing else changes; when that lookup raises, its exception
    comes out and nothing has changed. *)
Definition hold_path_taken {Model Target} (E : @Env Model Target)
    (c : TmpXtdComment) (request : Request) (w : World)
    (r : (Exception + option XtdComment) * World) : Prop :=
  match posted_target E request with
  | inl e => r = (inl e, w)
  | inr target =>
      r = (inr None, with_outbox (outbox w ++ [confirmation_email E c target]) w)
  end.

#[global] Instance ContentType_eq_dec : EqDecision ContentType.
Proof. solve_decision. Defined.

(** A row the follow-up query selects for [comment] that is attached to the
    very object of [comment]: same content type and same [object_pk]. *)
Definition object_follower (comment r : XtdComment) : Prop :=
  content_type (fields r) = content_type (fields comment)
  ∧ prior_follower comment r.

#[global] Instance object_follower_dec (comment r : XtdComment) :
  Decision (object_follower comment r).
Proof. unfold object_follower. apply _. Defined.

Definition object_follower_address (comment : XtdComment) (w : World) (e : string)
  : Prop :=
  ∃ r, r ∈ db w ∧ object_follower comment r ∧ user_email (fields r) = e.

#[global] Instance object_follower_address_dec
    (comment : XtdComment) (w : World) (e : string) :
  Decision (object_follower_address comment w e).
Proof.
  refine (cast_if (decide (Exists (λ r, object_follower comment r
                                        ∧ user_email (fields r) = e) (db w))));
    unfold object_follower_address; by rewrite <- Exists_exists.
Defined.

(** Whether the character occurs in the string. *)
Fixpoint occurs (ch : Ascii.ascii) (s : string) : bool :=
  match s with
  | EmptyString => false
  | String c rest => Ascii.eqb c ch || occurs ch rest
  end.

(** [w'] is [w] with rows, messages and signals added at the end and the key
    sequence moved on by [n]. *)
Definition grown_by (n : Z) (w w' : World) : Prop :=
  db w `prefix_of` db w'
  ∧ outbox w `prefix_of` outbox w'
  ∧ signals_sent w `prefix_of` signals_sent w'
  ∧ next_id w' = next_id w + n
  ∧ length (db w') = (length (db w) + Z.to_nat n)%nat.

(** An address that follows the thread of [c] in world [w]: it is the
    [user_email] of a persisted row that follows the thread. *)
Definition thread_follower (c : TmpXtdComment) (w : World) (e : string) : Prop :=
  ∃ r, r ∈ db w ∧ follows_thread c r ∧ user_email (fields r) = e.

#[global] Instance thread_follower_dec (c : TmpXtdComment) (w : World) (e : string) :
  Decision (thread_follower c w e).
Proof.
  refine (cast_if (decide (Exists (λ r, follows_thread c r
                                        ∧ user_email (fields r) = e) (db w))));
    unfold thread_follower; by rewrite <- Exists_exists.
Defined.

(** Further inhabitants of the demo site: erin comments on an entry the site
    does not have, and alice has come back under another name. *)
Definition erin_tmp : TmpXtdComment :=
  {| user := Some {| user_pk := 9; is_authenticated := true |};
     user_name := "erin"; user_email := "erin@example.com";
     user_url := ""; comment_text := "lost"; submit_date := 4000;
     content_type := blog_entry; object_pk := "2"; site_id := 1;
     ip_address := "10.0.0.4"; is_public := false; is_removed := false;
     followup := false |}.

Definition alice_again_row : XtdComment :=
  {| id := Some 3;
     fields :=
       {| user := None; user_name := "Alice L."; user_email := "alice@example.com";
          user_url := ""; comment_text := "again"; submit_date := 2500;
          content_type := blog_entry; object_pk := "1"; site_id := 1;
          ip_address := "10.0.0.1"; is_public := true; is_removed := false;
          followup := true |} |}.

Definition returning_world : World :=
  {| db := [alice_row; bob_row; alice_again_row]; next_id := 4;
     outbox := []; signals_sent := [] |}.

(** dave follows a photo that happens to have the primary key of the blog
    entry; frank follows the entry the site does not have. *)
Definition photos_photo : ContentType := {| app_label := "photos"; model := "photo" |}.

Definition dave_row : XtdComment :=
  {| id := Some 3;
     fields :=
       {| user := None; user_name := "dave"; user_email := "dave@example.com";
          user_url := ""; comment_text := "nice shot"; submit_date := 2600;
          content_type := photos_photo; object_pk := "1"; site_id := 1;
          ip_address := "10.0.0.5"; is_public := true; is_removed := false;
          followup := true |} |}.

Definition frank_row : XtdComment :=
  {| id := Some 4;
     fields :=
       {| user := None; user_name := "frank"; user_email := "frank@example.com";
          user_url := ""; comment_text := "where is it"; submit_date := 2700;
          content_type := blog_entry; object_pk := "2"; site_id := 1;
          ip_address := "10.0.0.6"; is_public := true; is_removed := false;
          followup := true |} |}.

Definition crowded_world : World :=
  {| db := [alice_row; bob_row; dave_row; frank_row]; next_id := 5;
     outbox := []; signals_sent := [] |}.

Definition requested_for (c : string) : Request :=
  {| POST := ∅; GET := <["c" := c]> ∅ |}.

Section Properties.

Context {Model Target : Type}.
Variable E : @Env Model Target.

(** *** The monad and the world updates *)

Lemma with_outbox_outbox w : with_outbox (outbox w) w = w.
Proof. by destruct w. Qed.

Lemma with_outbox_twice a b w : with_outbox a (with_outbox b w) = with_outbox a w.
Proof. done. Qed.

(** *** The deduplication query *)

Lemma filter_nonempty {A} (p : A → bool) (l : list A) :
  (0 < length (List.filter p l))%nat ↔ ∃ x, x ∈ l ∧ p x = true.
Proof.
  split.
  - destruct (List.filter p l) as [|x rest] eqn:Hf; simpl; [lia|].
    intros _. exists x.
    assert (Hin : In x (List.filter p l)) by (rewrite Hf; by left).
    apply filter_In in Hin as [Hin Hp]. by rewrite list_elem_of_In.
  - intros (x & Hin & Hp).
    assert (Hx : In x (List.filter p l)).
    { apply filter_In. by rewrite <- list_elem_of_In. }
    destruct (List.filter p l); [done | simpl; lia].
Qed.

Lemma comment_exists_run (c : TmpXtdComment) (w : World) :
  ∃ b, _comment_exists c w = (inr b, w) ∧ (b = true ↔ already_exists c w).
Proof.
  eexists. split; [reflexivity|].
  rewrite bool_decide_eq_true, filter_nonempty.
  unfold already_exists, same_dedup_key.
  split; intros (r & Hin & Hk); exists r; (split; [done|]).
  - apply andb_prop in Hk as [Hk H3]. apply andb_prop in Hk as [H1 H2].
    apply bool_decide_eq_true in H1, H2, H3. done.
  - destruct Hk as (H1 & H2 & H3).
    rewrite !andb_true_iff, !bool_decide_eq_true. done.
Qed.

Lemma comment_exists_true c w :
  already_exists c w → _comment_exists c w = (inr true, w).
Proof.
  intros H. destruct (comment_exists_run c w) as (b & Hrun & Hb).
  rewrite Hrun. apply Hb in H. by subst.
Qed.

Lemma comment_exists_false c w :
  ¬ already_exists c w → _comment_exists c w = (inr false, w).
Proof.
  intros H. destruct (comment_exists_run c w) as (b & Hrun & Hb).
  rewrite Hrun. destruct b; [|done]. destruct H. by apply Hb.
Qed.

(** *** Creation *)

Lemma create_comment_run (c : TmpXtdComment) (w : World) :
  _create_comment c w = (inr (created_row c w), world_after_create c w).
Proof. done. Qed.


(** *** Follow-up notification *)

Lemma foreach_send_run (comment : XtdComment) (target : Target)
    (l : list (string * string)) (w : World) :
  foreach l (λ '(email, name),
    send_mail (ugettext_lazy E "new comment posted")
      (render E "django_comments_xtd/email_followup_comment.txt"
         (FollowupContext name comment target (get_current_site E)))
      (DEFAULT_FROM_EMAIL E) [email]) w
  = (inr tt, with_outbox (outbox w ++ map (followup_email E comment target) l) w).
Proof.
  revert w. induction l as [|[email name] l IH]; intros w; simpl.
  - unfold ret. by rewrite app_nil_r, with_outbox_outbox.
  - unfold bind at 1. simpl. rewrite IH. simpl.
    rewrite with_outbox_twice. by rewrite <- app_assoc.
Qed.

Lemma followers_lookup (rows : list XtdComment) (d : gmap string string) (e : string) :
  is_Some (foldl (λ d i, <[user_email (fields i) := user_name (fields i)]> d) d rows !! e)
  ↔ is_Some (d !! e) ∨ ∃ r, r ∈ rows ∧ user_email (fields r) = e.
Proof.
  revert d. induction rows as [|r rows IH]; intros d; simpl.
  - split; [by left|]. intros [H|(r & Hin & _)]; [done|]. by apply elem_of_nil in Hin.
  - rewrite IH. rewrite lookup_insert_is_Some'. split.
    + intros [[Heq|Hd]|(r' & Hin & He)].
      * right. exists r. split; [by left | done].
      * by left.
      * right. exists r'. split; [by right | done].
    + intros [Hd|(r' & Hin & He)].
      * left. by right.
      * apply elem_of_cons in Hin as [->|Hin].
        -- left. by left.
        -- right. by exists r'.
Qed.

Lemma count_key_nodup {V} (l : list (string * V)) (e : string) :
  NoDup l.*1 →
  length (List.filter (λ p : string * V, bool_decide (p.1 = e)) l)
  = if decide (e ∈ l.*1) then 1%nat else 0%nat.
Proof.
  induction l as [|[k v] l IH]; intros Hnd; [done|].
  rewrite fmap_cons in *. cbn [List.filter fst] in *.
  - apply NoDup_cons in Hnd as [Hk Hnd]. specialize (IH Hnd).
    destruct (decide (k = e)) as [->|Hke].
    + rewrite bool_decide_eq_true_2 by done. cbn [length]. rewrite IH.
      rewrite decide_False by done. rewrite decide_True by (by left). done.
    + rewrite bool_decide_eq_false_2 by done. rewrite IH.
      destruct (decide (e ∈ l.*1)) as [Hin|Hin].
      * rewrite decide_True by (by right). done.
      * rewrite decide_False; [done|].
        intros [->|H]%elem_of_cons; done.
Qed.

Lemma followers_of_lookup (comment : XtdComment) (w : World) (e : string) :
  is_Some (followers_of comment w !! e) ↔ follower_address comment w e.
Proof.
  unfold followers_of. rewrite followers_lookup, lookup_empty.
  unfold follower_address, prior_follower. split.
  - intros [[? ?]|(r & Hin & He)]; [done|].
    apply list_elem_of_In, filter_In in Hin as [Hin Hp].
    rewrite !andb_true_iff, negb_true_iff in Hp.
    destruct Hp as [[[H1 H2] H3] H4].
    apply bool_decide_eq_true in H1, H2, H3. apply bool_decide_eq_false in H4.
    exists r. by rewrite list_elem_of_In.
  - intros (r & Hin & (H1 & H2 & H3 & H4) & He). right. exists r.
    split; [|done]. apply list_elem_of_In, filter_In.
    split; [by apply list_elem_of_In|].
    rewrite !andb_true_iff, negb_true_iff, !bool_decide_eq_true, bool_decide_eq_false.
    done.
Qed.

Lemma notify_run (comment : XtdComment) (w : World) :
  notify_comment_followers E comment w =
  match get_model E [app_label (content_type (fields comment));
                     model (content_type (fields comment))] with
  | inl e => (inl e, w)
  | inr None => (inl AttributeError, w)
  | inr (Some cls) =>
      match manager_get E cls (object_pk (fields comment)) with
      | inl e => (inl e, w)
      | inr target =>
          (inr tt, with_outbox (outbox w ++ map (followup_email E comment target)
                                              (map_to_list (followers_of comment w))) w)
      end
  end.
Proof.
  unfold notify_comment_followers, objects_filter, gets, bind at 1 2.
  destruct (get_model E _) as [e|[cls|]]; simpl; try done.
  unfold bind. simpl.
  destruct (manager_get E cls _) as [e|target]; simpl; [done|].
  apply foreach_send_run.
Qed.

(** Whatever happens, [notify_comment_followers] only adds to the outbox. *)
Lemma notify_frame (comment : XtdComment) (w : World) :
  ∃ r mails, notify_comment_followers E comment w
             = (r, with_outbox (outbox w ++ mails) w).
Proof.
  rewrite notify_run.
  destruct (get_model E _) as [e|[cls|]].
  - exists (inl e), []. by rewrite app_nil_r, with_outbox_outbox.
  - destruct (manager_get E cls _) as [e|target].
    + exists (inl e), []. by rewrite app_nil_r, with_outbox_outbox.
    + by eexists _, _.
  - exists (inl AttributeError), []. by rewrite app_nil_r, with_outbox_outbox.
Qed.

Lemma mails_to_followups (comment : XtdComment) (target : Target)
    (l : list (string * string)) (e : string) :
  mails_to e (map (followup_email E comment target) l)
  = length (List.filter (λ p : string * string, bool_decide (p.1 = e)) l).
Proof.
  unfold mails_to. induction l as [|p l IH]; [done|].
  cbn [map List.filter]. cbn [followup_email recipients].
  destruct (decide (p.1 = e)) as [He|He].
  - rewrite !bool_decide_eq_true_2 by congruence. cbn [length]. by rewrite IH.
  - rewrite !bool_decide_eq_false_2 by congruence. done.
Qed.

Lemma mails_to_followers (comment : XtdComment) (target : Target) (w : World) (e : string) :
  mails_to e (map (followup_email E comment target) (map_to_list (followers_of comment w)))
  = if decide (is_Some (followers_of comment w !! e)) then 1%nat else 0%nat.
Proof.
  rewrite mails_to_followups, count_key_nodup by apply NoDup_fst_map_to_list.
  assert (Hiff : e ∈ (map_to_list (followers_of comment w)).*1
                 ↔ is_Some (followers_of comment w !! e)).
  { rewrite list_elem_of_fmap. split.
    - intros ([k v] & -> & Hin). apply elem_of_map_to_list in Hin. by exists v.
    - intros [v Hv]. exists (e, v). split; [done|]. by apply elem_of_map_to_list. }
  destruct (decide (e ∈ _)) as [H|H], (decide (is_Some _)) as [H'|H']; tauto.
Qed.

(** *** The signal handler *)

Lemma publish_condition_iff (c : TmpXtdComment) :
  (match user c with
   | Some u => is_authenticated u
   | None => false
   end) || negb (COMMENTS_XTD_CONFIRM_EMAIL E) = true
  ↔ authenticated_or_unconfirmed E c.
Proof.
  unfold authenticated_or_unconfirmed.
  destruct (user c) as [u|], (COMMENTS_XTD_CONFIRM_EMAIL E); simpl.
  - rewrite orb_false_r. split.
    + intros H. left. by exists u.
    + intros [(u' & [= <-] & H)|H]; done.
  - rewrite orb_true_r. split; [by right | done].
  - split; [done | intros [(u' & [=] & _)|H]; done].
  - split; [by right | done].
Qed.

Lemma posted_duplicate_run (c : TmpXtdComment) (request : Request) (w : World) :
  authenticated_or_unconfirmed E c → already_exists c w →
  on_comment_was_posted E c request w = (inr None, w).
Proof.
  intros Hc Hex. apply publish_condition_iff in Hc.
  unfold on_comment_was_posted. rewrite Hc.
  unfold bind. by rewrite comment_exists_true.
Qed.

Lemma posted_new_run (c : TmpXtdComment) (request : Request) (w : World) :
  authenticated_or_unconfirmed E c → ¬ already_exists c w →
  on_comment_was_posted E c request w =
  match notify_comment_followers E (created_row c w) (world_after_create c w) with
  | (inl e, w') => (inl e, w')
  | (inr _, w') => (inr (Some (created_row c w)), w')
  end.
Proof.
  intros Hc Hex. apply publish_condition_iff in Hc.
  unfold on_comment_was_posted. rewrite Hc.
  unfold bind. rewrite comment_exists_false by done. cbn [negb].
  rewrite create_comment_run.
  by destruct (notify_comment_followers E _ _) as [[e|[]] w'].
Qed.

Lemma posted_hold_run (c : TmpXtdComment) (request : Request) (w : World) :
  ¬ authenticated_or_unconfirmed E c →
  on_comment_was_posted E c request w =
  match posted_target E request with
  | inl e => (inl e, w)
  | inr target =>
      (inr None, with_outbox (outbox w ++ [confirmation_email E c target]) w)
  end.
Proof.
  intros Hc. rewrite <- publish_condition_iff in Hc.
  apply not_true_is_false in Hc.
  unfold on_comment_was_posted. rewrite Hc.
  unfold posted_target, POST_getitem, bind.
  destruct (POST request !! "content_type") as [ctype|]; [|done].
  destruct (POST request !! "object_pk") as [pk|]; [|done]. simpl.
  destruct (get_model E _) as [e|[cls|]]; simpl; try done.
  destruct (manager_get E cls pk) as [e|target]; simpl; done.
Qed.

Lemma app_singleton_ne {A} (l : list A) (x : A) : l ≠ l ++ [x].
Proof. intros H. apply (f_equal length) in H. rewrite length_app in H. simpl in H. lia. Qed.

Lemma authenticated_or_unconfirmed_dec (c : TmpXtdComment) :
  authenticated_or_unconfirmed E c ∨ ¬ authenticated_or_unconfirmed E c.
Proof.
  rewrite <- publish_condition_iff.
  destruct (_ || _); [by left | by right].
Qed.

Lemma already_exists_cases (c : TmpXtdComment) (w : World) :
  already_exists c w ∨ ¬ already_exists c w.
Proof. destruct (decide (already_exists c w)); [by left | by right]. Qed.

(** *** The confirmation view *)

Lemma confirm_bad_key_run (request : Request) (key tpl : string) (w : World) :
  signed_loads E key (COMMENTS_XTD_SALT E) = inl ValueError
  ∨ signed_loads E key (COMMENTS_XTD_SALT E) = inl BadSignature →
  confirm E request key tpl w = (inl Http404, w).
Proof. intros [H|H]; unfold confirm, bind; by rewrite H. Qed.

Lemma confirm_duplicate_run (request : Request) (key tpl : string) (w : World)
    (tmp : TmpXtdComment) :
  signed_loads E key (COMMENTS_XTD_SALT E) = inr tmp →
  already_exists tmp w →
  confirm E request key tpl w = (inl Http404, w).
Proof.
  intros Hkey Hex. unfold confirm, bind. rewrite Hkey. cbn [ret].
  by rewrite comment_exists_true.
Qed.

Lemma confirm_dispatch_run (request : Request) (key tpl : string) (w : World)
    (tmp : TmpXtdComment) :
  signed_loads E key (COMMENTS_XTD_SALT E) = inr tmp →
  ¬ already_exists tmp w →
  confirm E request key tpl w =
  let w1 := world_after_signal tmp request w in
  match call_receivers (confirmation_received_receivers E) tmp request with
  | inl e => (inl e, w1)
  | inr responses =>
      if discarded responses
      then (inr (RenderedResponse tpl tmp request), w1)
      else match notify_comment_followers E (created_row tmp w1)
                   (world_after_create tmp w1) with
           | (inl e, w') => (inl e, w')
           | (inr _, w') => (inr (RedirectResponse (created_row tmp w1)), w')
           end
  end.
Proof.
  intros Hkey Hex. unfold confirm, bind. rewrite Hkey. cbn [ret].
  rewrite comment_exists_false by done.
  unfold confirmation_received_send, bind, modify. cbn zeta.
  fold (world_after_signal tmp request w).
  destruct (call_receivers _ tmp request) as [e|responses]; [done|].
  cbn [lift ret]. destruct (discarded responses); [done|].
  rewrite create_comment_run.
  by destruct (notify_comment_followers E _ _) as [[e|[]] w'].
Qed.

Lemma call_receivers_elem (rs : list Receiver) (c : TmpXtdComment) (request : Request)
    (responses : list (string * PyVal)) (r : Receiver) (v : PyVal) :
  call_receivers rs c request = inr responses →
  r ∈ rs → receiver_call r c request = inr v →
  (receiver_name r, v) ∈ responses.
Proof.
  revert responses. induction rs as [|r' rs IH]; intros responses Hrun Hin Hv.
  - by apply elem_of_nil in Hin.
  - simpl in Hrun.
    destruct (receiver_call r' c request) as [e|v'] eqn:Hr'; [done|].
    destruct (call_receivers rs c request) as [e|vs]; [done|].
    injection Hrun as <-.
    apply elem_of_cons in Hin as [->|Hin].
    + rewrite Hv in Hr'. injection Hr' as <-. by left.
    + right. by apply IH.
Qed.

Lemma discarded_true_iff (responses : list (string * PyVal)) :
  discarded responses = true
  ↔ ∃ name v, (name, v) ∈ responses ∧ py_eq_False v = true.
Proof.
  induction responses as [|[name v] rest IH]; simpl.
  - split; [done|]. intros (? & ? & Hin & _). by apply elem_of_nil in Hin.
  - destruct (py_eq_False v) eqn:Hv.
    + split; [|done]. intros _. exists name, v. split; [by left | done].
    + rewrite IH. split.
      * intros (n & v' & Hin & H). exists n, v'. split; [by right | done].
      * intros (n & v' & Hin & H).
        apply elem_of_cons in Hin as [[= -> ->]|Hin]; [congruence|].
        by exists n, v'.
Qed.

Lemma confirm_db (request : Request) (key tpl : string) (w : World) :
  db (confirm E request key tpl w).2 = db w
  ∨ ∃ tmp, db (confirm E request key tpl w).2
           = db w ++ [{| id := Some (next_id w); fields := set_is_public true tmp |}].
Proof.
  destruct (signed_loads E key (COMMENTS_XTD_SALT E)) as [e|tmp] eqn:Hkey.
  { left. unfold confirm, bind. rewrite Hkey. by destruct e. }
  destruct (already_exists_cases tmp w) as [Hex|Hex].
  { left. by rewrite (confirm_duplicate_run _ _ _ _ tmp). }
  rewrite (confirm_dispatch_run _ _ _ _ tmp) by done. cbn zeta.
  destruct (call_receivers _ tmp request) as [e|responses]; [by left|].
  destruct (discarded responses); [by left|].
  right. exists tmp.
  destruct (notify_frame (created_row tmp (world_after_signal tmp request w))
              (world_after_create tmp (world_after_signal tmp request w)))
    as (res & mails & ->).
  by destruct res.
Qed.

Lemma posted_new_db (c : TmpXtdComment) (request : Request) (w : World) :
  authenticated_or_unconfirmed E c → ¬ already_exists c w →
  db (on_comment_was_posted E c request w).2 = db w ++ [created_row c w].
Proof.
  intros Hc Hex. rewrite posted_new_run by done.
  destruct (notify_frame (created_row c w) (world_after_create c w))
    as (res & mails & ->).
  by destruct res.
Qed.

Lemma posted_db (c : TmpXtdComment) (request : Request) (w : World) :
  db (on_comment_was_posted E c request w).2 = db w
  ∨ db (on_comment_was_posted E c request w).2 = db w ++ [created_row c w].
Proof.
  destruct (authenticated_or_unconfirmed_dec c) as [Hc|Hc].
  - destruct (already_exists_cases c w) as [Hex|Hex].
    + left. by rewrite posted_duplicate_run.
    + right. by apply posted_new_db.
  - left. rewrite posted_hold_run by done.
    by destruct (posted_target E request).
Qed.

Lemma created_row_exists (c : TmpXtdComment) (w w' : World) :
  db w' = db w ++ [created_row c w] → already_exists c w'.
Proof.
  intros Hdb. exists (created_row c w). split; [|done].
  rewrite Hdb. apply elem_of_app. right. by left.
Qed.

(** After the publish path has run, the comment is among the persisted rows. *)
Lemma posted_leaves_comment (c : TmpXtdComment) (request : Request) (w : World) :
  authenticated_or_unconfirmed E c →
  already_exists c (on_comment_was_posted E c request w).2.
Proof.
  intros Hc. destruct (already_exists_cases c w) as [Hex|Hex].
  - by rewrite posted_duplicate_run.
  - eapply created_row_exists. by apply posted_new_db.
Qed.

Lemma already_exists_same_keys (c : TmpXtdComment) (rows rows' : list XtdComment) :
  Forall2 (λ r r', user_name (fields r) = user_name (fields r')
                   ∧ user_email (fields r) = user_email (fields r')
                   ∧ submit_date (fields r) = submit_date (fields r')) rows rows' →
  (∃ r, r ∈ rows ∧ same_dedup_key r c) → ∃ r', r' ∈ rows' ∧ same_dedup_key r' c.
Proof.
  induction 1 as [|r r' rows rows' (H1 & H2 & H3) _ IH]; intros (x & Hin & Hk).
  - by apply elem_of_nil in Hin.
  - apply elem_of_cons in Hin as [->|Hin].
    + exists r'. split; [by left|]. unfold same_dedup_key in *.
      rewrite <- H1, <- H2, <- H3. done.
    + destruct IH as (y & Hy & Hky); [by exists x|].
      exists y. split; [by right | done].
Qed.

Lemma hold_condition (c : TmpXtdComment) :
  (∀ u, user c = Some u → is_authenticated u = false) →
  COMMENTS_XTD_CONFIRM_EMAIL E = true →
  ¬ authenticated_or_unconfirmed E c.
Proof.
  intros Hu Hs [(u & Hsome & Hauth)|Hoff]; [|congruence].
  apply Hu in Hsome. congruence.
Qed.

(** ** The claims *)

(** C3: when [signed.loads] rejects the key with [ValueError] or
    [BadSignature], [confirm] raises [Http404] and the world, the persisted
    comments included, is left as it was. *)
Theorem confirm_bad_key_404 (request : Request) (key tpl : string) (w : World) :
  signed_loads E key (COMMENTS_XTD_SALT E) = inl ValueError
  ∨ signed_loads E key (COMMENTS_XTD_SALT E) = inl BadSignature →
  confirm E request key tpl w = (inl Http404, w).
Proof. apply confirm_bad_key_run. Qed.

(** C4: [_comment_exists] answers [True] exactly when some persisted row has
    the [user_name], the [user_email] and the [submit_date] of the comment,
    and nothing else takes part: comments that agree on these three fields get
    the same answer, and so do tables whose rows agree on them. *)
Theorem comment_exists_dedup_key (c : TmpXtdComment) (w : World) :
  (∃ b, _comment_exists c w = (inr b, w) ∧ (b = true ↔ already_exists c w))
  ∧ (∀ c', user_name c' = user_name c → user_email c' = user_email c →
           submit_date c' = submit_date c →
           _comment_exists c' w = _comment_exists c w)
  ∧ (∀ w', Forall2 (λ r r', user_name (fields r) = user_name (fields r')
                            ∧ user_email (fields r) = user_email (fields r')
                            ∧ submit_date (fields r) = submit_date (fields r'))
                   (db w) (db w') →
           (_comment_exists c w).1 = (_comment_exists c w').1).
Proof.
  split; [apply comment_exists_run|]. split.
  - intros c' H1 H2 H3. unfold _comment_exists. by rewrite H1, H2, H3.
  - intros w' Hrows.
    destruct (comment_exists_run c w) as (b & -> & Hb).
    destruct (comment_exists_run c w') as (b' & -> & Hb'). simpl. f_equal.
    assert (Hiff : already_exists c w ↔ already_exists c w').
    { split; apply already_exists_same_keys; [done|].
      eapply Forall2_flip, Forall2_impl; [exact Hrows|].
      intros r r' (H1 & H2 & H3). done. }
    destruct b, b'; try done.
    + assert (true = true) as H%Hb by done. apply Hiff, Hb' in H. done.
    + assert (true = true) as H%Hb' by done. apply Hiff, Hb in H. done.
Qed.

(** C6: on the hold path (user not authenticated and
    [COMMENTS_XTD_CONFIRM_EMAIL] set) no row is created, no signal and no
    follow-up is sent; once the commented object is looked up from the
    request, the only effect is one confirmation request in the outbox,
    addressed to [comment.user_email], whose template context carries the
    URL of [comments-xtd-confirm] for the signed key of the comment.  When the
    lookup raises, nothing has happened at all. *)
Theorem hold_path_sends_only_confirmation
    (c : TmpXtdComment) (request : Request) (w : World) :
  (∀ u, user c = Some u → is_authenticated u = false) →
  COMMENTS_XTD_CONFIRM_EMAIL E = true →
  let r := on_comment_was_posted E c request w in
  db r.2 = db w ∧ next_id r.2 = next_id w ∧ signals_sent r.2 = signals_sent w
  ∧ (∀ target, posted_target E request = inr target →
       r = (inr None, with_outbox (outbox w ++ [confirmation_email E c target]) w)
       ∧ recipients (confirmation_email E c target) = [user_email c]
       ∧ body (confirmation_email E c target)
         = render E "django_comments_xtd/email_confirmation_request.txt"
             (ConfirmationContext c target
                (reverse E "comments-xtd-confirm"
                   [signed_dumps E c true (COMMENTS_XTD_SALT E)])
                (DEFAULT_FROM_EMAIL E) (get_current_site E)))
  ∧ (∀ e, posted_target E request = inl e → r = (inl e, w)).
Proof.
  intros Hu Hs r. pose proof (hold_condition c Hu Hs) as Hc.
  subst r. rewrite posted_hold_run by done.
  destruct (posted_target E request) as [e|target]; simpl.
  - do 3 (split; [done|]). split; [done|]. by intros e' [= <-].
  - do 3 (split; [done|]). split; [|done]. by intros t [= <-].
Qed.

(** C7: on the publish path a comment whose deduplication key is already
    persisted makes [on_comment_was_posted] a no-op: no second row, no
    follow-up e-mail, the world is the one it started from.  Posting is
    therefore idempotent: handling the same comment a second time leaves the
    world the first handling produced. *)
Theorem publish_duplicate_noop (c : TmpXtdComment) (request : Request) (w : World) :
  authenticated_or_unconfirmed E c →
  (already_exists c w → on_comment_was_posted E c request w = (inr None, w))
  ∧ on_comment_was_posted E c request (on_comment_was_posted E c request w).2
    = (inr None, (on_comment_was_posted E c request w).2).
Proof.
  intros Hc. split; [by apply posted_duplicate_run|].
  apply posted_duplicate_run; [done|]. by apply posted_leaves_comment.
Qed.

(** C8: when the key decodes to a comment that is already persisted under the
    same [user_name], [user_email] and [submit_date], [confirm] raises
    [Http404]; no signal is sent, no e-mail leaves and no row is created: the
    world is the one it started from. *)
Theorem confirm_duplicate_404 (request : Request) (key tpl : string) (w : World)
    (tmp : TmpXtdComment) :
  signed_loads E key (COMMENTS_XTD_SALT E) = inr tmp →
  already_exists tmp w →
  confirm E request key tpl w = (inl Http404, w).
Proof. apply confirm_duplicate_run. Qed.

(** C9: every comment [_create_comment] persists is public, whatever
    [is_public] the temporary comment carried; hence any row that
    [on_comment_was_posted] or [confirm] adds to the table is public. *)
Theorem created_comments_are_public :
  (∀ tmp w, ∃ c, _create_comment tmp w
                 = (inr c, with_db (db w ++ [c]) (next_id w + 1) w)
                 ∧ is_public (fields c) = true)
  ∧ (∀ c request w,
       db (on_comment_was_posted E c request w).2 = db w
       ∨ ∃ x, db (on_comment_was_posted E c request w).2 = db w ++ [x]
              ∧ is_public (fields x) = true)
  ∧ (∀ request key tpl w,
       db (confirm E request key tpl w).2 = db w
       ∨ ∃ x, db (confirm E request key tpl w).2 = db w ++ [x]
              ∧ is_public (fields x) = true).
Proof.
  split; [|split].
  - intros tmp w. exists (created_row tmp w). by rewrite create_comment_run.
  - intros c request w. destruct (posted_db c request w) as [H|H]; [by left|].
    right. by exists (created_row c w).
  - intros request key tpl w.
    destruct (confirm_db request key tpl w) as [H|[tmp H]]; [by left|].
    right. by eexists.
Qed.

(** C10: when the dispatch of [confirmation_received] returns and some
    receiver answered [False], [confirm] answers with the discarded template
    and stops there: no comment is created and no follower is notified, the
    persisted rows and the outbox are those it started from. *)
Theorem confirm_discarded
    (request : Request) (key tpl : string) (w : World)
    (tmp : TmpXtdComment) (responses : list (string * PyVal))
    (i : nat) (r : Receiver) :
  signed_loads E key (COMMENTS_XTD_SALT E) = inr tmp →
  ¬ already_exists tmp w →
  call_receivers (confirmation_received_receivers E) tmp request = inr responses →
  confirmation_received_receivers E !! i = Some r →
  receiver_call r tmp request = inr (PyBool false) →
  confirm E request key tpl w
  = (inr (RenderedResponse tpl tmp request), world_after_signal tmp request w)
  ∧ db (confirm E request key tpl w).2 = db w
  ∧ next_id (confirm E request key tpl w).2 = next_id w
  ∧ outbox (confirm E request key tpl w).2 = outbox w.
Proof.
  intros Hkey Hex Hrun Hin Hfalse.
  assert (Hd : discarded responses = true).
  { apply discarded_true_iff. exists (receiver_name r), (PyBool false).
    split; [|done]. eapply call_receivers_elem; [done| |done].
    by eapply list_elem_of_lookup_2. }
  rewrite (confirm_dispatch_run _ _ _ _ tmp) by done. cbn zeta.
  by rewrite Hrun, Hd.
Qed.

End Properties.

(** ** The views on the demo site *)

(** carol is logged in: her comment is persisted under key 3 and alice, who
    follows the thread, is told; bob, who does not, is not. *)
Example carol_posts :
  let r := on_comment_was_posted (demo_env true []) carol_tmp demo_request demo_world in
  r.1 = inr (Some (created_row carol_tmp demo_world))
  ∧ db r.2 = [alice_row; bob_row; created_row carol_tmp demo_world]
  ∧ map recipients (outbox r.2) = [["alice@example.com"]].
Proof. vm_compute. done. Qed.

(** bob is anonymous and confirmation is on: nothing is persisted and the
    confirmation request goes to him. *)
Example bob_is_held :
  let r := on_comment_was_posted (demo_env true []) bob_tmp demo_request empty_world in
  r.1 = inr None ∧ db r.2 = []
  ∧ map recipients (outbox r.2) = [["bob@example.com"]]
  ∧ map body (outbox r.2)
    = ["django_comments_xtd/email_confirmation_request.txt /comments/confirm/bob"].
Proof. vm_compute. done. Qed.

(** A receiver answering [0] discards as well: [0 == False] in Python. *)
Example zero_discards :
  (confirm (demo_env true [{| receiver_name := "zero";
                              receiver_call := λ _ _, inr (PyInt 0) |}])
     demo_request "carol" discarded_template demo_world).1
  = inr (RenderedResponse discarded_template carol_tmp demo_request).
Proof. vm_compute. done. Qed.

(** An exception of [signed.loads] other than the two that are caught goes
    through [confirm] unchanged. *)
Example other_load_errors_propagate :
  confirm {| COMMENTS_XTD_SALT := "salt"; COMMENTS_XTD_CONFIRM_EMAIL := true;
             DEFAULT_FROM_EMAIL := ""; get_current_site := demo_site;
             ugettext_lazy := λ s, s; reverse := λ _ _, "";
             render := λ _ _, ""; signed_dumps := λ _ _ _, "";
             signed_loads := λ _ _, inl (OtherError "TypeError");
             get_model := demo_get_model; manager_get := demo_manager_get;
             confirmation_received_receivers := [] |}
    demo_request "x" discarded_template demo_world
  = (inl (OtherError "TypeError"), demo_world).
Proof. reflexivity. Qed.

Example split_content_type :
  split "." "blog.entry" = ["blog"; "entry"] ∧ split "." "" = [""]
  ∧ split "." "a." = ["a"; ""].
Proof. done. Qed.

(** ** The claims on the demo site *)

Lemma confirm_bad_key_404_witness :
  confirm (demo_env true [accepting]) demo_request "" discarded_template demo_world
  = (inl Http404, demo_world)
  ∧ confirm (demo_env true [accepting]) demo_request "forged" discarded_template demo_world
    = (inl Http404, demo_world).
Proof.
  split; apply (confirm_bad_key_404 (demo_env true [accepting]));
    [left | right]; reflexivity.
Defined.

Lemma comment_exists_dedup_key_witness :
  _comment_exists carol_tmp demo_world = (inr false, demo_world)
  ∧ _comment_exists (set_is_public true alice_tmp) demo_world
    = _comment_exists alice_tmp demo_world.
Proof.
  destruct (comment_exists_dedup_key alice_tmp demo_world) as (_ & Hc & _).
  destruct (comment_exists_dedup_key carol_tmp demo_world) as ((b & Hrun & Hb) & _).
  assert (Hnew : ¬ already_exists carol_tmp demo_world) by compute_done.
  split.
  - rewrite Hrun. destruct b; [|done]. destruct Hnew. by apply Hb.
  - apply Hc; reflexivity.
Defined.

Lemma hold_path_sends_only_confirmation_witness :
  on_comment_was_posted (demo_env true []) bob_tmp demo_request demo_world
  = (inr None,
     with_outbox [confirmation_email (demo_env true []) bob_tmp "entry#1"] demo_world)
  ∧ recipients (confirmation_email (demo_env true []) bob_tmp "entry#1")
    = ["bob@example.com"].
Proof.
  destruct (hold_path_sends_only_confirmation (demo_env true []) bob_tmp
              demo_request demo_world) as (_ & _ & _ & Hsent & _);
    [discriminate | reflexivity |].
  destruct (Hsent "entry#1") as (Hrun & Hto & _); [vm_compute; reflexivity|].
  split; [exact Hrun | exact Hto].
Defined.

Lemma publish_duplicate_noop_witness :
  on_comment_was_posted (demo_env false []) alice_tmp demo_request demo_world
  = (inr None, demo_world).
Proof.
  destruct (publish_duplicate_noop (demo_env false []) alice_tmp demo_request
              demo_world) as [Hnoop _]; [by right|].
  apply Hnoop. compute_done.
Defined.

Lemma confirm_duplicate_404_witness :
  confirm (demo_env true [accepting]) demo_request "alice" discarded_template demo_world
  = (inl Http404, demo_world).
Proof.
  apply (confirm_duplicate_404 (demo_env true [accepting]) demo_request "alice"
           discarded_template demo_world alice_tmp); [reflexivity | compute_done].
Defined.

Lemma created_comments_are_public_witness :
  ∃ c, _create_comment bob_tmp demo_world
       = (inr c, with_db (db demo_world ++ [c]) (next_id demo_world + 1) demo_world)
       ∧ is_public (fields c) = true.
Proof.
  destruct (created_comments_are_public (demo_env true [])) as (Hcreate & _).
  apply Hcreate.
Defined.

Lemma confirm_discarded_witness :
  confirm (demo_env true [accepting; rejecting]) demo_request "carol"
    discarded_template demo_world
  = (inr (RenderedResponse discarded_template carol_tmp demo_request),
     world_after_signal carol_tmp demo_request demo_world)
  ∧ db (confirm (demo_env true [accepting; rejecting]) demo_request "carol"
          discarded_template demo_world).2 = [alice_row; bob_row].
Proof.
  destruct (confirm_discarded (demo_env true [accepting; rejecting]) demo_request
              "carol" discarded_template demo_world carol_tmp
              [("accepting", PyNone); ("rejecting", PyBool false)] 1%nat rejecting)
    as (Hrun & Hdb & _);
    [reflexivity | compute_done | reflexivity | reflexivity | reflexivity |].
  split; [exact Hrun | exact Hdb].
Defined.

(** ** Further properties of the views *)

Section RequestedProperties.

Variable to_python : string → Exception + Z.
Variable get_absolute_url : XtdComment → string.

Lemma filter_unique_key {A B} `{EqDecision B} (f : A → B) (y : B) (l : list A) :
  NoDup (f <$> l) →
  List.filter (λ r, bool_decide (f r = y)) l = []
  ∨ ∃ r, List.filter (λ r, bool_decide (f r = y)) l = [r] ∧ r ∈ l ∧ f r = y.
Proof.
  induction l as [|x l IH]; intros Hnd; [by left|].
  rewrite fmap_cons in Hnd. apply NoDup_cons in Hnd as [Hx Hnd].
  cbn [List.filter]. destruct (decide (f x = y)) as [Hy|Hy].
  - rewrite bool_decide_eq_true_2 by done. right. exists x.
    split; [|split; [by left | done]]. f_equal.
    destruct (List.filter _ l) as [|z rest] eqn:Hf; [done|]. exfalso.
    assert (Hz : In z (List.filter (λ r, bool_decide (f r = y)) l))
      by (rewrite Hf; by left).
    apply filter_In in Hz as [Hz Hfz]. apply bool_decide_eq_true in Hfz.
    apply Hx. rewrite Hy, <- Hfz. apply list_elem_of_fmap_2.
    by apply list_elem_of_In.
  - rewrite bool_decide_eq_false_2 by done.
    destruct (IH Hnd) as [Hnil|(r & Hr & Hin & Hfr)]; [by left|].
    right. exists r. split; [done|]. split; [by right | done].
Qed.

Lemma filter_no_key {A B} `{EqDecision B} (f : A → B) (y : B) (l : list A) :
  (∀ r, r ∈ l → f r ≠ y) → List.filter (λ r, bool_decide (f r = y)) l = [].
Proof.
  induction l as [|x l IH]; intros Hno; [done|]. cbn [List.filter].
  rewrite bool_decide_eq_false_2 by (apply Hno; by left).
  apply IH. intros r Hr. apply Hno. by right.
Qed.

Lemma requested_without_key (request : Request) (template : string) (w : World) :
  default "" (GET request !! "c") = "" →
  confirmation_requested to_python get_absolute_url request template w
  = (inr (TemplateResponse template request), w).
Proof.
  intros Hc. unfold confirmation_requested. by rewrite bool_decide_eq_true_2.
Qed.

Lemma requested_with_key (request : Request) (template v : string) (w : World) :
  GET request !! "c" = Some v → v ≠ "" →
  confirmation_requested to_python get_absolute_url request template w
  = match to_python v with
    | inl ValueError | inl DoesNotExist =>
        (inr (TemplateResponse template request), w)
    | inl e => (inl e, w)
    | inr k =>
        match List.filter (λ r, bool_decide (id r = Some k)) (db w) with
        | [] => (inr (TemplateResponse template request), w)
        | [r] => (inr (HttpResponseRedirect (get_absolute_url r)), w)
        | _ => (inl (OtherError "MultipleObjectsReturned"), w)
        end
    end.
Proof.
  intros Hget Hv. unfold confirmation_requested.
  rewrite Hget. cbn [default]. rewrite bool_decide_eq_false_2 by done.
  cbn [negb]. unfold bind at 1, try_except, GET_getitem, bind at 1.
  rewrite Hget. cbn [ret]. unfold objects_get.
  destruct (to_python v) as [e|k]; [by destruct e|].
  unfold bind, objects_filter, gets.
  by destruct (List.filter _ (db w)) as [|r [|r' rest]].
Qed.

(** X1: [confirmation_requested] falls back to the template, without raising
    and without touching anything, whenever the request names no comment:
    the parameter [c] is missing or empty, the key lookup rejects it with
    [ValueError] (text that is no integer), or the key is looked up and no
    persisted comment has it. *)
Theorem requested_falls_back (request : Request) (template : string) (w : World) :
  GET request !! "c" = None
  ∨ GET request !! "c" = Some ""
  ∨ (∃ v, GET request !! "c" = Some v ∧ to_python v = inl ValueError)
  ∨ (∃ v k, GET request !! "c" = Some v ∧ to_python v = inr k
            ∧ ∀ r, r ∈ db w → id r ≠ Some k) →
  confirmation_requested to_python get_absolute_url request template w
  = (inr (TemplateResponse template request), w).
Proof.
  intros [H|[H|[(v & H & Hv)|(v & k & H & Hv & Hno)]]].
  - apply requested_without_key. by rewrite H.
  - apply requested_without_key. by rewrite H.
  - destruct (decide (v = "")) as [->|Hne].
    + apply requested_without_key. by rewrite H.
    + rewrite (requested_with_key _ _ v) by done. by rewrite Hv.
  - destruct (decide (v = "")) as [->|Hne].
    + apply requested_without_key. by rewrite H.
    + rewrite (requested_with_key _ _ v) by done. rewrite Hv.
      by rewrite filter_no_key.
Qed.

(** X2: when primary keys are unique and [c] is the key of a persisted
    comment, [confirmation_requested] redirects to that comment's absolute
    URL and leaves the world as it was. *)
Theorem requested_redirects_to_comment
    (request : Request) (template v : string) (k : Z) (r : XtdComment) (w : World) :
  NoDup (id <$> db w) →
  GET request !! "c" = Some v → v ≠ "" → to_python v = inr k →
  r ∈ db w → id r = Some k →
  confirmation_requested to_python get_absolute_url request template w
  = (inr (HttpResponseRedirect (get_absolute_url r)), w).
Proof.
  intros Hnd Hget Hv Hk Hin Hid.
  rewrite (requested_with_key _ _ v) by done. rewrite Hk.
  destruct (filter_unique_key id (Some k) (db w) Hnd) as [Hnil|(r' & Hr' & Hin' & Hid')].
  - exfalso.
    assert (Hr : In r (List.filter (λ r, bool_decide (id r = Some k)) (db w))).
    { apply filter_In. split; [by apply list_elem_of_In|]. by apply bool_decide_eq_true. }
    by rewrite Hnil in Hr.
  - rewrite Hr'. assert (r' = r) as ->; [|done].
    apply list_elem_of_lookup in Hin as [i Hi], Hin' as [j Hj].
    assert (i = j) as ->.
    { apply (NoDup_lookup (id <$> db w) i j (Some k)); [done| |];
        rewrite list_lookup_fmap; [rewrite Hi | rewrite Hj]; simpl; congruence. }
    congruence.
Qed.

(** X3: the only exceptions [confirmation_requested] lets through are those
    of the key lookup it does not catch.  With unique primary keys the view
    raises [e] exactly when [c] is given, not empty, and preparing the key
    raises [e], [e] being neither [ValueError] nor [DoesNotExist] (the
    [OverflowError] on an integer past the key column, for one); and whether
    it raises or not, the world is the one it started from. *)
Theorem requested_fails_only_on_lookup_error
    (request : Request) (template : string) (w : World) :
  NoDup (id <$> db w) →
  (∀ e, (confirmation_requested to_python get_absolute_url request template w).1
        = inl e
        ↔ ∃ v, GET request !! "c" = Some v ∧ v ≠ "" ∧ to_python v = inl e
               ∧ e ≠ ValueError ∧ e ≠ DoesNotExist)
  ∧ (confirmation_requested to_python get_absolute_url request template w).2 = w.
Proof.
  intros Hnd. destruct (GET request !! "c") as [v|] eqn:Hget.
  - destruct (decide (v = "")) as [->|Hne].
    + rewrite requested_without_key by (by rewrite Hget). split; [|done].
      intros e. split; [done|]. by intros (v & [= <-] & Hv & _).
    + rewrite (requested_with_key _ _ v) by done.
      destruct (to_python v) as [e'|k] eqn:Hk.
      * destruct e'; (split; [|done]); intros e; simpl;
          (split; [intros [= <-]; by exists v
                  | intros (v' & [= <-] & _ & Hv' & H1 & H2); congruence]).
      * destruct (filter_unique_key id (Some k) (db w) Hnd)
          as [->|(r & -> & _)]; (split; [|done]); intros e;
          (split; [done | intros (v' & [= <-] & _ & Hv' & _); congruence]).
  - rewrite requested_without_key by (by rewrite Hget). split; [|done].
    intros e. split; [done|]. by intros (v & [=] & _).
Qed.

End RequestedProperties.

Section MoreProperties.

Context {Model Target : Type}.
Variable E : @Env Model Target.

(** *** Primary keys stay fresh *)

Lemma pk_below_mono (n m : Z) (r : XtdComment) :
  (n ≤ m)%Z → pk_below n r → pk_below m r.
Proof. unfold pk_below. destruct (id r); [lia | done]. Qed.

Lemma pks_fresh_create (c : TmpXtdComment) (w : World) :
  pks_fresh w → pks_fresh (world_after_create c w).
Proof.
  intros [Hnd Hall]. split; simpl.
  - rewrite fmap_app. apply NoDup_app. split; [done|]. split; [|apply NoDup_singleton].
    intros k Hk [->|[]%elem_of_nil]%elem_of_cons.
    apply list_elem_of_fmap in Hk as (r & Hid & Hr).
    rewrite Forall_forall in Hall. apply Hall in Hr.
    unfold pk_below in Hr. rewrite <- Hid in Hr. simpl in Hr. lia.
  - apply Forall_app. split.
    + eapply Forall_impl; [exact Hall|]. intros r. apply pk_below_mono. lia.
    + apply Forall_singleton. unfold pk_below. simpl. lia.
Qed.

Lemma pks_fresh_frame (w w' : World) :
  db w' = db w → next_id w' = next_id w → pks_fresh w → pks_fresh w'.
Proof. unfold pks_fresh. by intros -> ->. Qed.

(** The world a handler leaves: the one it started from or the one after a
    signal, after a creation, or after both, with messages added. *)
Lemma posted_world (c : TmpXtdComment) (request : Request) (w : World) :
  ∃ mails,
    (on_comment_was_posted E c request w).2 = with_outbox (outbox w ++ mails) w
    ∨ (on_comment_was_posted E c request w).2
      = with_outbox (outbox w ++ mails) (world_after_create c w).
Proof.
  destruct (authenticated_or_unconfirmed_dec E c) as [Hc|Hc].
  - destruct (already_exists_cases c w) as [Hex|Hex].
    + rewrite posted_duplicate_run by done. exists []. left.
      by rewrite app_nil_r, with_outbox_outbox.
    + rewrite posted_new_run by done.
      destruct (notify_frame E (created_row c w) (world_after_create c w))
        as (res & mails & ->).
      exists mails. right. by destruct res.
  - rewrite posted_hold_run by done.
    destruct (posted_target E request) as [e|target].
    + exists []. left. by rewrite app_nil_r, with_outbox_outbox.
    + eexists. by left.
Qed.

Lemma confirm_world (request : Request) (key tpl : string) (w : World) :
  (confirm E request key tpl w).2 = w
  ∨ ∃ tmp, signed_loads E key (COMMENTS_XTD_SALT E) = inr tmp
           ∧ ¬ already_exists tmp w
           ∧ ((confirm E request key tpl w).2 = world_after_signal tmp request w
              ∨ ∃ mails,
                  (confirm E request key tpl w).2
                  = with_outbox (outbox w ++ mails)
                      (world_after_create tmp (world_after_signal tmp request w))).
Proof.
  destruct (signed_loads E key (COMMENTS_XTD_SALT E)) as [e|tmp] eqn:Hkey.
  { left. unfold confirm, bind. rewrite Hkey. by destruct e. }
  destruct (already_exists_cases tmp w) as [Hex|Hex].
  { left. by rewrite (confirm_duplicate_run _ _ _ _ _ tmp). }
  right. exists tmp. split; [done|]. split; [done|].
  rewrite (confirm_dispatch_run _ _ _ _ _ tmp) by done. cbn zeta.
  destruct (call_receivers _ tmp request) as [e|responses]; [by left|].
  destruct (discarded responses); [by left|]. right.
  destruct (notify_frame E (created_row tmp (world_after_signal tmp request w))
              (world_after_create tmp (world_after_signal tmp request w)))
    as (res & mails & ->).
  exists mails. by destruct res.
Qed.

(** X4: unique primary keys drawn from the key sequence are an invariant of
    the views: [on_comment_was_posted] and [confirm] keep it, whichever path
    they take and whether or not they raise. *)
Theorem views_keep_pks_fresh (w : World) :
  pks_fresh w →
  (∀ c request, pks_fresh (on_comment_was_posted E c request w).2)
  ∧ (∀ request key tpl, pks_fresh (confirm E request key tpl w).2).
Proof.
  intros Hw. split.
  - intros c request.
    destruct (posted_world c request w) as (mails & [->| ->]).
    + by apply (pks_fresh_frame w).
    + apply (pks_fresh_frame (world_after_create c w)); [done..|].
      by apply pks_fresh_create.
  - intros request key tpl.
    destruct (confirm_world request key tpl w)
      as [->|(tmp & _ & _ & [->|(mails & ->)])]; [done| |].
    + by apply (pks_fresh_frame w).
    + apply (pks_fresh_frame
               (world_after_create tmp (world_after_signal tmp request w)));
        [done..|].
      apply pks_fresh_create. by apply (pks_fresh_frame w).
Qed.

(** *** Who is notified, and under which name *)

Lemma notify_run_target (comment : XtdComment) (w : World) :
  notify_comment_followers E comment w =
  match comment_target E (fields comment) with
  | inl e => (inl e, w)
  | inr target =>
      (inr tt, with_outbox (outbox w ++ map (followup_email E comment target)
                                          (map_to_list (followers_of comment w))) w)
  end.
Proof.
  rewrite notify_run. unfold comment_target.
  by destruct (get_model E _) as [e|[cls|]].
Qed.

Lemma notify_fails_run (comment : XtdComment) (w : World) (e : Exception) :
  comment_target E (fields comment) = inl e →
  notify_comment_followers E comment w = (inl e, w).
Proof. intros H. by rewrite notify_run_target, H. Qed.

(** X5: [notify_comment_followers] resolves the commented object before it
    sends anything: when the lookup raises (unknown model, missing object),
    the exception goes to the caller and no follower has been mailed; the
    world is the one it started from. *)
Theorem notify_fails_before_sending (comment : XtdComment) (w : World) (e : Exception) :
  comment_target E (fields comment) = inl e →
  notify_comment_followers E comment w = (inl e, w).
Proof. intros H. by rewrite notify_run_target, H. Qed.

Lemma followers_name_origin (rows : list XtdComment) (d : gmap string string)
    (e n : string) :
  foldl (λ d i, <[user_email (fields i) := user_name (fields i)]> d) d rows !! e
  = Some n →
  d !! e = Some n
  ∨ ∃ r, r ∈ rows ∧ user_email (fields r) = e ∧ user_name (fields r) = n.
Proof.
  revert d. induction rows as [|r rows IH]; intros d; [by left|].
  cbn [foldl]. intros [Hd|(r' & Hin & He & Hn)]%IH.
  - destruct (decide (user_email (fields r) = e)) as [He|He].
    + rewrite <- He, lookup_insert_eq in Hd. injection Hd as Hn.
      right. exists r. split; [by left | done].
    + rewrite lookup_insert_ne in Hd by done. by left.
  - right. exists r'. split; [by right | done].
Qed.

Lemma followers_of_name (comment : XtdComment) (w : World) (e n : string) :
  followers_of comment w !! e = Some n →
  ∃ r, r ∈ db w ∧ prior_follower comment r
       ∧ user_email (fields r) = e ∧ user_name (fields r) = n.
Proof.
  unfold followers_of.
  intros [Hd|(r & Hin & He & Hn)]%followers_name_origin;
    [by rewrite lookup_empty in Hd|].
  apply list_elem_of_In, filter_In in Hin as [Hin Hp].
  rewrite !andb_true_iff, negb_true_iff in Hp.
  destruct Hp as [[[H1 H2] H3] H4].
  apply bool_decide_eq_true in H1, H2, H3. apply bool_decide_eq_false in H4.
  exists r. by rewrite list_elem_of_In.
Qed.

(** X6: nobody is greeted by somebody else's name.  Every message
    [notify_comment_followers] sends is the follow-up for one of the rows the
    query selected: it goes to the [user_email] of that row and greets by the
    [user_name] of that same row.  (For a follower who commented under
    several names, which of them is used follows from the order of the
    queryset and is not stated here.) *)
Theorem notify_greets_by_own_name
    (comment : XtdComment) (w : World) (target : Target) :
  comment_target E (fields comment) = inr target →
  ∃ mails,
    notify_comment_followers E comment w
    = (inr tt, with_outbox (outbox w ++ mails) w)
    ∧ ∀ m, m ∈ mails →
        ∃ r, r ∈ db w ∧ prior_follower comment r
             ∧ m = followup_email E comment target
                     (user_email (fields r), user_name (fields r)).
Proof.
  intros Ht. rewrite notify_run_target, Ht. eexists. split; [done|].
  intros m ([e n] & -> & Hin)%list_elem_of_fmap.
  apply elem_of_map_to_list, followers_of_name in Hin
    as (r & Hin & Hp & <- & <-).
  by exists r.
Qed.

Lemma fresh_followers (c : TmpXtdComment) (w : World) (e : string) :
  pks_fresh w →
  follower_address (created_row c w) (world_after_create c w) e
  ↔ thread_follower c w e.
Proof.
  intros [_ Hall]. rewrite Forall_forall in Hall.
  unfold follower_address, thread_follower, prior_follower, follows_thread.
  cbn [world_after_create with_db db created_row fields set_is_public object_pk id].
  split.
  - intros (r & Hin & (H1 & H2 & H3 & H4) & He).
    apply elem_of_app in Hin as [Hin|Hin%list_elem_of_singleton].
    + by exists r.
    + subst r. done.
  - intros (r & Hin & (H1 & H2 & H3) & He). exists r.
    split; [apply elem_of_app; by left|]. split; [|done].
    do 3 (split; [done|]). intros Hid. apply Hall in Hin.
    unfold pk_below in Hin. rewrite Hid in Hin. lia.
Qed.

Lemma notify_created_run (c : TmpXtdComment) (w : World) (target : Target) :
  pks_fresh w → comment_target E c = inr target →
  ∃ mails,
    notify_comment_followers E (created_row c w) (world_after_create c w)
    = (inr tt, with_outbox (outbox w ++ mails) (world_after_create c w))
    ∧ (∀ e, thread_follower c w e → mails_to e mails = 1%nat)
    ∧ (∀ e, ¬ thread_follower c w e → mails_to e mails = 0%nat).
Proof.
  intros Hw Ht. rewrite notify_run_target.
  change (comment_target E (fields (created_row c w))) with (comment_target E c).
  rewrite Ht. eexists. split; [done|].
  split; intros e He; rewrite mails_to_followers.
  - rewrite decide_True; [done|]. by apply followers_of_lookup, fresh_followers.
  - rewrite decide_False; [done|]. by rewrite followers_of_lookup, fresh_followers.
Qed.

(** X7: immediate publication, end to end.  With fresh primary keys, a new
    comment on the publish path whose object resolves is persisted, handed
    back as [comment.xtd_comment], and exactly one follow-up goes to every
    address that followed the thread before the comment was created, none to
    anybody else: in particular the new comment, even with [followup] set,
    does not notify its own author. *)
Theorem publish_notifies_prior_followers
    (c : TmpXtdComment) (request : Request) (w : World) (target : Target) :
  authenticated_or_unconfirmed E c →
  ¬ already_exists c w →
  pks_fresh w →
  comment_target E c = inr target →
  ∃ mails,
    on_comment_was_posted E c request w
    = (inr (Some (created_row c w)),
       with_outbox (outbox w ++ mails) (world_after_create c w))
    ∧ (∀ e, thread_follower c w e → mails_to e mails = 1%nat)
    ∧ (∀ e, ¬ thread_follower c w e → mails_to e mails = 0%nat).
Proof.
  intros Hc Hex Hw Ht. rewrite posted_new_run by done.
  destruct (notify_created_run c w target Hw Ht) as (mails & -> & Hone & Hnone).
  by exists mails.
Qed.

(** X8: confirmation, end to end.  With fresh primary keys, a valid key for a
    comment that is not persisted yet, receivers that all answer and none
    with [False], and an object that resolves, [confirm] redirects to the
    comment it has persisted and exactly one follow-up goes to every address
    that had a public follow-up comment with the same [object_pk] before the
    call, none to any other address. *)
Theorem confirm_notifies_prior_followers
    (request : Request) (key tpl : string) (w : World)
    (tmp : TmpXtdComment) (responses : list (string * PyVal)) (target : Target) :
  signed_loads E key (COMMENTS_XTD_SALT E) = inr tmp →
  ¬ already_exists tmp w →
  call_receivers (confirmation_received_receivers E) tmp request = inr responses →
  Forall (λ response, py_eq_False response.2 = false) responses →
  pks_fresh w →
  comment_target E tmp = inr target →
  ∃ mails,
    confirm E request key tpl w
    = (inr (RedirectResponse (created_row tmp w)),
       with_outbox (outbox w ++ mails)
         (world_after_create tmp (world_after_signal tmp request w)))
    ∧ (∀ e, thread_follower tmp w e → mails_to e mails = 1%nat)
    ∧ (∀ e, ¬ thread_follower tmp w e → mails_to e mails = 0%nat).
Proof.
  intros Hkey Hex Hrun Hkeep Hw Ht.
  assert (Hd : discarded responses = false).
  { apply not_true_is_false. intros (name & v & Hin & Hv)%discarded_true_iff.
    rewrite Forall_forall in Hkeep. apply Hkeep in Hin. simpl in Hin. congruence. }
  rewrite (confirm_dispatch_run _ _ _ _ _ tmp) by done. cbn zeta.
  rewrite Hrun, Hd.
  assert (Hw1 : pks_fresh (world_after_signal tmp request w))
    by by apply (pks_fresh_frame w).
  destruct (notify_created_run tmp _ target Hw1 Ht) as (mails & -> & Hone & Hnone).
  by exists mails.
Qed.

(** *** Holding, confirming, confirming again *)

Lemma not_discarded (responses : list (string * PyVal)) :
  discarded responses = false
  ↔ Forall (λ response, py_eq_False response.2 = false) responses.
Proof.
  induction responses as [|[name v] rest IH]; simpl.
  - split; [by constructor | done].
  - destruct (py_eq_False v) eqn:Hv.
    + split; [done|]. intros [H _]%Forall_cons. simpl in H. congruence.
    + rewrite IH. split; [by constructor | by intros [_ H]%Forall_cons].
Qed.

(** X9: a held comment comes back through its link.  When the key mailed on
    the hold path decodes to the comment it was signed from, presenting that
    key to [confirm] (the comment still being new, the receivers answering
    and none with [False]) persists exactly the row immediate publication
    would have created: the hold path has neither touched the table nor taken
    a primary key. *)
Theorem held_comment_is_confirmed
    (c : TmpXtdComment) (posted confirming : Request) (tpl : string) (w : World)
    (target : Target) (responses : list (string * PyVal)) :
  ¬ authenticated_or_unconfirmed E c →
  posted_target E posted = inr target →
  signed_loads E (signed_dumps E c true (COMMENTS_XTD_SALT E)) (COMMENTS_XTD_SALT E)
    = inr c →
  ¬ already_exists c w →
  call_receivers (confirmation_received_receivers E) c confirming = inr responses →
  Forall (λ response, py_eq_False response.2 = false) responses →
  let held := on_comment_was_posted E c posted w in
  let key := signed_dumps E c true (COMMENTS_XTD_SALT E) in
  held = (inr None, with_outbox (outbox w ++ [confirmation_email E c target]) w)
  ∧ body (confirmation_email E c target)
    = render E "django_comments_xtd/email_confirmation_request.txt"
        (ConfirmationContext c target (reverse E "comments-xtd-confirm" [key])
           (DEFAULT_FROM_EMAIL E) (get_current_site E))
  ∧ db (confirm E confirming key tpl held.2).2 = db w ++ [created_row c w].
Proof.
  intros Hc Ht Hkey Hex Hrun Hkeep held key. subst held key.
  rewrite posted_hold_run, Ht by done. split; [done|]. split; [done|].
  cbn [snd].
  rewrite (confirm_dispatch_run _ _ _ _ _ c) by done. cbn zeta.
  rewrite Hrun. apply not_discarded in Hkeep. rewrite Hkeep.
  match goal with
  | |- context [notify_comment_followers E ?x ?y] =>
      destruct (notify_frame E x y) as (res & mails & ->)
  end.
  by destruct res.
Qed.

Lemma confirm_added_row (request : Request) (key tpl : string) (w : World) :
  db (confirm E request key tpl w).2 ≠ db w →
  ∃ tmp responses,
    signed_loads E key (COMMENTS_XTD_SALT E) = inr tmp
    ∧ ¬ already_exists tmp w
    ∧ call_receivers (confirmation_received_receivers E) tmp request = inr responses
    ∧ discarded responses = false
    ∧ db (confirm E request key tpl w).2 = db w ++ [created_row tmp w].
Proof.
  intros Hdb.
  destruct (signed_loads E key (COMMENTS_XTD_SALT E)) as [e|tmp] eqn:Hkey.
  { destruct Hdb. unfold confirm, bind. rewrite Hkey. by destruct e. }
  destruct (already_exists_cases tmp w) as [Hex|Hex].
  { destruct Hdb. by rewrite (confirm_duplicate_run _ _ _ _ _ tmp). }
  exists tmp. revert Hdb.
  rewrite (confirm_dispatch_run _ _ _ _ _ tmp) by done. cbn zeta.
  destruct (call_receivers _ tmp request) as [e|responses]; [done|].
  destruct (discarded responses) eqn:Hd; [done|]. intros _.
  exists responses. do 4 (split; [done|]).
  match goal with
  | |- context [notify_comment_followers E ?x ?y] =>
      destruct (notify_frame E x y) as (res & mails & ->)
  end.
  by destruct res.
Qed.

Lemma confirm_adds_row (request : Request) (key tpl : string) (w : World)
    (tmp : TmpXtdComment) (responses : list (string * PyVal)) :
  signed_loads E key (COMMENTS_XTD_SALT E) = inr tmp →
  ¬ already_exists tmp w →
  call_receivers (confirmation_received_receivers E) tmp request = inr responses →
  Forall (λ response, py_eq_False response.2 = false) responses →
  db (confirm E request key tpl w).2 = db w ++ [created_row tmp w].
Proof.
  intros Hkey Hex Hrun Hkeep%not_discarded.
  rewrite (confirm_dispatch_run _ _ _ _ _ tmp) by done. cbn zeta.
  rewrite Hrun, Hkeep.
  match goal with
  | |- context [notify_comment_followers E ?x ?y] =>
      destruct (notify_frame E x y) as (res & mails & ->)
  end.
  by destruct res.
Qed.

(** X10: [confirm] persists a comment exactly through a valid, fresh and
    undiscarded confirmation: the table changes if and only if the key
    decodes, the decoded comment is not persisted yet, every receiver answers
    and no answer equals [False]; and in that case the table is the previous
    one followed by the new row.  A bad key, a repeated link, a receiver that
    raises or one that discards all leave the table alone. *)
Theorem confirm_persists_iff (request : Request) (key tpl : string) (w : World) :
  (db (confirm E request key tpl w).2 ≠ db w
   ↔ ∃ tmp responses,
       signed_loads E key (COMMENTS_XTD_SALT E) = inr tmp
       ∧ ¬ already_exists tmp w
       ∧ call_receivers (confirmation_received_receivers E) tmp request
         = inr responses
       ∧ Forall (λ response, py_eq_False response.2 = false) responses)
  ∧ (∀ tmp responses,
       signed_loads E key (COMMENTS_XTD_SALT E) = inr tmp →
       ¬ already_exists tmp w →
       call_receivers (confirmation_received_receivers E) tmp request
       = inr responses →
       Forall (λ response, py_eq_False response.2 = false) responses →
       db (confirm E request key tpl w).2 = db w ++ [created_row tmp w]).
Proof.
  split; [split|].
  - intros (tmp & responses & H1 & H2 & H3 & H4 & _)%confirm_added_row.
    exists tmp, responses. by rewrite <- not_discarded.
  - intros (tmp & responses & H1 & H2 & H3 & H4) H.
    rewrite (confirm_adds_row _ _ _ _ tmp responses) in H by done.
    by apply eq_sym, app_singleton_ne in H.
  - apply confirm_adds_row.
Qed.

(** X11: a confirmation link works once.  Once [confirm] has persisted the
    comment of a key, whether or not the notification that follows raised,
    any later [confirm] with the same key raises [Http404] and changes
    nothing. *)
Theorem confirm_link_single_use
    (request again : Request) (key tpl tpl' : string) (w : World) :
  db (confirm E request key tpl w).2 ≠ db w →
  confirm E again key tpl' (confirm E request key tpl w).2
  = (inl Http404, (confirm E request key tpl w).2).
Proof.
  intros (tmp & responses & Hkey & _ & _ & _ & Hdb)%confirm_added_row.
  apply (confirm_duplicate_run _ _ _ _ _ tmp); [done|].
  by eapply created_row_exists.
Qed.

(** X12: what [_create_comment] has persisted, [_comment_exists] finds: after
    creating the row for [c], the check answers [True] for [c] and for every
    comment with the same [user_name], [user_email] and [submit_date],
    whatever [is_public] said. *)
Theorem created_comment_exists (c c' : TmpXtdComment) (w : World) :
  user_name c' = user_name c → user_email c' = user_email c →
  submit_date c' = submit_date c →
  _comment_exists c' (_create_comment c w).2
  = (inr true, (_create_comment c w).2).
Proof.
  intros H1 H2 H3. apply comment_exists_true. rewrite create_comment_run.
  exists (created_row c w). split.
  - simpl. apply elem_of_app. right. by left.
  - by repeat split.
Qed.

(** *** What the views leave alone *)

Lemma grown_by_outbox (n : Z) (w w0 : World) (mails : list Email) :
  outbox w0 = outbox w → grown_by n w w0 →
  grown_by n w (with_outbox (outbox w ++ mails) w0).
Proof.
  intros Ho (Hdb & _ & Hs & Hn & Hl). repeat split; try done.
  by apply prefix_app_r.
Qed.

Lemma grown_by_refl (w : World) : grown_by 0 w w.
Proof. repeat split; try done; simpl; lia. Qed.

Lemma grown_by_create (c : TmpXtdComment) (w : World) :
  grown_by 1 w (world_after_create c w).
Proof.
  repeat split; simpl; try done.
  - by apply prefix_app_r.
  - rewrite length_app. simpl. lia.
Qed.

(** X13: the signal handler only ever adds.  Whatever the path and the
    outcome, [on_comment_was_posted] keeps the rows, the messages and the
    signal log it found, in order; it adds at most one row, taking exactly one
    primary key when it does, and it never sends a signal. *)
Theorem posted_only_adds (c : TmpXtdComment) (request : Request) (w : World) :
  let w' := (on_comment_was_posted E c request w).2 in
  (grown_by 0 w w' ∨ grown_by 1 w w') ∧ signals_sent w' = signals_sent w.
Proof.
  cbn zeta. destruct (posted_world c request w) as (mails & [->| ->]).
  - split; [left | done]. apply grown_by_outbox; [done | apply grown_by_refl].
  - split; [right | done]. apply grown_by_outbox; [done | apply grown_by_create].
Qed.

(** X14: [confirm] only ever adds as well: rows, messages and signals it
    found stay, in order; it sends [confirmation_received] at most once and
    adds at most one row, taking exactly one primary key when it does. *)
Theorem confirm_only_adds (request : Request) (key tpl : string) (w : World) :
  let w' := (confirm E request key tpl w).2 in
  (grown_by 0 w w' ∨ grown_by 1 w w')
  ∧ (length (signals_sent w') ≤ length (signals_sent w) + 1)%nat.
Proof.
  cbn zeta.
  destruct (confirm_world request key tpl w)
    as [->|(tmp & _ & _ & [->|(mails & ->)])].
  - split; [left; apply grown_by_refl | lia].
  - split.
    + left. repeat split; simpl; try done; [by apply prefix_app_r | lia].
    + simpl. rewrite length_app. simpl. lia.
  - split.
    + right. apply grown_by_outbox; [done|].
      repeat split; simpl; try done.
      * by apply prefix_app_r.
      * by apply prefix_app_r.
      * rewrite length_app. simpl. lia.
    + simpl. rewrite length_app. simpl. lia.
Qed.

(** X15: the publish path does not look at the request: for a comment that is
    posted at once, the outcome is the same whatever [request.POST] holds, so
    a request without [content_type] or [object_pk] cannot make it fail. *)
Theorem publish_ignores_request (c : TmpXtdComment) (request other : Request) (w : World) :
  authenticated_or_unconfirmed E c →
  on_comment_was_posted E c request w = on_comment_was_posted E c other w.
Proof.
  intros Hc. destruct (already_exists_cases c w) as [Hex|Hex].
  - by rewrite !posted_duplicate_run.
  - by rewrite !posted_new_run.
Qed.

(** *** The object of a held comment *)

Lemma split_without_separator (ch : Ascii.ascii) (s : string) :
  occurs ch s = false → split ch s = [s].
Proof.
  induction s as [|c s IH]; [done|]. cbn [occurs split].
  intros [Hc Hs]%orb_false_elim. rewrite Hc. by rewrite IH.
Qed.

Lemma split_at_separator (ch : Ascii.ascii) (a b : string) :
  occurs ch a = false → split ch (a +:+ String ch b) = a :: split ch b.
Proof.
  induction a as [|c a IH]; simpl.
  - intros _. by rewrite Ascii.eqb_refl.
  - intros [Hc Ha]%orb_false_elim. rewrite Hc. by rewrite IH.
Qed.

Lemma posted_target_of_comment (c : TmpXtdComment) (request : Request) :
  POST request !! "content_type"
    = Some (app_label (content_type c) +:+ "." +:+ model (content_type c)) →
  POST request !! "object_pk" = Some (object_pk c) →
  occurs "." (app_label (content_type c)) = false →
  occurs "." (model (content_type c)) = false →
  posted_target E request = comment_target E c.
Proof.
  intros Hct Hpk Ha Hm. unfold posted_target, comment_target.
  rewrite Hct, Hpk.
  change ("." +:+ model (content_type c))
    with (String "."%char (model (content_type c))).
  by rewrite split_at_separator, split_without_separator.
Qed.

(** X16: the hold path and the notification agree on the commented object.
    When a held comment is posted with its own [content_type], written
    [app_label.model] with no dot inside either part, and its own
    [object_pk], then either [on_comment_was_posted] raises and
    [notify_comment_followers], run on any comment with that content type and
    [object_pk], raises the same exception without mailing anybody, or the
    confirmation request that is mailed and every follow-up that is mailed
    are rendered with the same object. *)
Theorem held_target_is_comment_target
    (c : TmpXtdComment) (request : Request) (w : World)
    (comment : XtdComment) (w' : World) :
  ¬ authenticated_or_unconfirmed E c →
  POST request !! "content_type"
    = Some (app_label (content_type c) +:+ "." +:+ model (content_type c)) →
  POST request !! "object_pk" = Some (object_pk c) →
  occurs "." (app_label (content_type c)) = false →
  occurs "." (model (content_type c)) = false →
  content_type (fields comment) = content_type c →
  object_pk (fields comment) = object_pk c →
  (∃ e, on_comment_was_posted E c request w = (inl e, w)
        ∧ notify_comment_followers E comment w' = (inl e, w'))
  ∨ (∃ target mails,
       on_comment_was_posted E c request w
       = (inr None, with_outbox (outbox w ++ [confirmation_email E c target]) w)
       ∧ notify_comment_followers E comment w'
         = (inr tt, with_outbox (outbox w' ++ mails) w')
       ∧ ∀ m, m ∈ mails → ∃ to, m = followup_email E comment target to).
Proof.
  intros Hc Hct Hpk Ha Hm Hsame_ct Hsame_pk.
  rewrite posted_hold_run by done.
  rewrite (posted_target_of_comment c) by done.
  rewrite notify_run_target.
  assert (Ht : comment_target E (fields comment) = comment_target E c)
    by (unfold comment_target; by rewrite Hsame_ct, Hsame_pk).
  rewrite Ht. destruct (comment_target E c) as [e|target].
  - left. by exists e.
  - right. eexists target, _. split; [done|]. split; [done|].
    intros m (to & -> & _)%list_elem_of_fmap. by exists to.
Qed.

(** *** The claims on the two paths and on the notification *)

Lemma object_follower_is_follower (comment : XtdComment) (w : World) (e : string) :
  object_follower_address comment w e → follower_address comment w e.
Proof. intros (r & Hin & [_ Hp] & He). by exists r. Qed.

Lemma notify_mails (comment : XtdComment) (w : World) (target : Target) :
  comment_target E (fields comment) = inr target →
  ∃ mails,
    notify_comment_followers E comment w
    = (inr tt, with_outbox (outbox w ++ mails) w)
    ∧ (∀ m, m ∈ mails → ∃ to, m = followup_email E comment target to)
    ∧ (∀ e, object_follower_address comment w e → mails_to e mails = 1%nat)
    ∧ (∀ e, ¬ follower_address comment w e → mails_to e mails = 0%nat)
    ∧ (∀ e, (mails_to e mails ≤ 1)%nat).
Proof.
  intros Ht. rewrite notify_run_target, Ht. eexists. split; [done|].
  split; [|split; [|split]].
  - intros m (to & -> & _)%list_elem_of_fmap. by exists to.
  - intros e He%object_follower_is_follower. rewrite mails_to_followers.
    rewrite decide_True; [done|]. by apply followers_of_lookup.
  - intros e He. rewrite mails_to_followers.
    rewrite decide_False; [done|]. by rewrite followers_of_lookup.
  - intros e. rewrite mails_to_followers. case_decide; lia.
Qed.

(** C5 (as amended): when the commented object resolves,
    [notify_comment_followers] sends exactly one follow-up e-mail to every
    distinct [user_email] found among the persisted comments on the same
    object (same content type and same [object_pk]) that are public, asked
    for follow-up and are not the comment itself; it sends at most one to
    any address, and none to an address without a public follow-up comment
    under that [object_pk] other than the comment itself.  Nothing but the
    outbox changes.  When the object does not resolve, the exception reaches
    the caller and no e-mail is sent. *)
Theorem notify_one_email_per_follower (comment : XtdComment) (w : World) :
  (∀ target,
     comment_target E (fields comment) = inr target →
     ∃ mails,
       notify_comment_followers E comment w
       = (inr tt, with_outbox (outbox w ++ mails) w)
       ∧ (∀ e, object_follower_address comment w e → mails_to e mails = 1%nat)
       ∧ (∀ e, ¬ follower_address comment w e → mails_to e mails = 0%nat)
       ∧ (∀ e, (mails_to e mails ≤ 1)%nat))
  ∧ (∀ e, comment_target E (fields comment) = inl e →
          notify_comment_followers E comment w = (inl e, w)).
Proof.
  split.
  - intros target Ht.
    destruct (notify_mails comment w target Ht) as (mails & ? & _ & ? & ? & ?).
    by exists mails.
  - intros e He. by rewrite notify_run_target, He.
Qed.

Lemma posted_publish_taken (c : TmpXtdComment) (request : Request) (w : World) :
  authenticated_or_unconfirmed E c →
  publish_path_taken E c w (on_comment_was_posted E c request w).
Proof.
  intros Hc. destruct (already_exists_cases c w) as [Hex|Hex].
  - left. split; [done|]. by apply posted_duplicate_run.
  - right. split; [done|]. split; [by apply posted_new_db|].
    rewrite posted_new_run by done.
    destruct (comment_target E c) as [e|target] eqn:Ht.
    + by rewrite (notify_fails_run (created_row c w) _ e).
    + destruct (notify_mails (created_row c w) (world_after_create c w) target Ht)
        as (mails & -> & Hfollow & _).
      by exists mails.
Qed.

Lemma posted_hold_taken (c : TmpXtdComment) (request : Request) (w : World) :
  ¬ authenticated_or_unconfirmed E c →
  hold_path_taken E c request w (on_comment_was_posted E c request w).
Proof.
  intros Hc. unfold hold_path_taken. rewrite posted_hold_run by done.
  by destruct (posted_target E request).
Qed.

Lemma paths_exclusive (c : TmpXtdComment) (request : Request) (w : World)
    (r : (Exception + option XtdComment) * World) :
  publish_path_taken E c w r → hold_path_taken E c request w r → False.
Proof.
  unfold hold_path_taken.
  intros [[_ ->]|(_ & Hdb & _)] Hh; destruct (posted_target E request) as [e|target].
  - done.
  - injection Hh as Hh. apply (f_equal outbox) in Hh. simpl in Hh.
    by apply app_singleton_ne in Hh.
  - subst r. simpl in Hdb. by apply app_singleton_ne in Hdb.
  - subst r. simpl in Hdb. by apply app_singleton_ne in Hdb.
Qed.

(** C1: [on_comment_was_posted] takes the publish path, on which the comment
    is persisted as an [XtdComment] (unless it is already there) and only
    follow-ups are mailed, if and only if the comment's user is set and
    authenticated or [COMMENTS_XTD_CONFIRM_EMAIL] is [False]; in every other
    case, and only then, it takes the hold path: nothing is persisted and,
    the commented object being found from the request, the confirmation
    request for the comment is mailed; when that lookup raises, its exception
    comes out and nothing has changed. *)
Theorem posted_path_choice (c : TmpXtdComment) (request : Request) (w : World) :
  (authenticated_or_unconfirmed E c
   ↔ publish_path_taken E c w (on_comment_was_posted E c request w))
  ∧ (¬ authenticated_or_unconfirmed E c
     ↔ hold_path_taken E c request w (on_comment_was_posted E c request w)).
Proof.
  split; split.
  - apply posted_publish_taken.
  - intros Hp. destruct (authenticated_or_unconfirmed_dec E c) as [Hc|Hc]; [done|].
    destruct (paths_exclusive c request w _ Hp (posted_hold_taken c request w Hc)).
  - apply posted_hold_taken.
  - intros Hh Hc.
    exact (paths_exclusive c request w _ (posted_publish_taken c request w Hc) Hh).
Qed.



End MoreProperties.

(** ** The further properties on the demo site *)

Lemma requested_falls_back_witness :
  confirmation_requested demo_to_python demo_absolute_url (requested_for "abc")
    requested_template demo_world
  = (inr (TemplateResponse requested_template (requested_for "abc")), demo_world)
  ∧ confirmation_requested demo_to_python demo_absolute_url (requested_for "3")
      requested_template demo_world
    = (inr (TemplateResponse requested_template (requested_for "3")), demo_world).
Proof.
  split; apply requested_falls_back; right; right.
  - left. exists "abc". split; vm_compute; reflexivity.
  - right. exists "3", 3. split; [vm_compute; reflexivity|]. split; [reflexivity|].
    apply Forall_forall. compute_done.
Defined.

Lemma requested_redirects_to_comment_witness :
  confirmation_requested demo_to_python demo_absolute_url (requested_for "1")
    requested_template demo_world
  = (inr (HttpResponseRedirect (demo_absolute_url alice_row)), demo_world).
Proof.
  apply (requested_redirects_to_comment demo_to_python demo_absolute_url
           (requested_for "1") requested_template "1" 1 alice_row demo_world);
    [compute_done | vm_compute; reflexivity | discriminate | reflexivity
    | apply list_elem_of_here | reflexivity].
Defined.

Lemma requested_fails_only_on_lookup_error_witness :
  (confirmation_requested demo_to_python demo_absolute_url
     (requested_for "9223372036854775808") requested_template demo_world).1
  = inl (OtherError "OverflowError")
  ∧ (confirmation_requested demo_to_python demo_absolute_url
       (requested_for "9223372036854775808") requested_template demo_world).2
    = demo_world.
Proof.
  destruct (requested_fails_only_on_lookup_error demo_to_python demo_absolute_url
              (requested_for "9223372036854775808") requested_template demo_world)
    as [Hraises Hworld]; [compute_done|].
  split; [|exact Hworld]. apply Hraises.
  exists "9223372036854775808".
  split; [vm_compute; reflexivity|]. by repeat split.
Defined.

Lemma views_keep_pks_fresh_witness :
  pks_fresh (on_comment_was_posted (demo_env true []) carol_tmp demo_request
               demo_world).2
  ∧ pks_fresh (confirm (demo_env true [accepting]) demo_request "carol"
                 discarded_template demo_world).2.
Proof.
  split.
  - apply (views_keep_pks_fresh (demo_env true []) demo_world); compute_done.
  - apply (views_keep_pks_fresh (demo_env true [accepting]) demo_world); compute_done.
Defined.

Lemma notify_fails_before_sending_witness :
  notify_comment_followers (demo_env true []) (created_row erin_tmp demo_world)
    (world_after_create erin_tmp demo_world)
  = (inl DoesNotExist, world_after_create erin_tmp demo_world).
Proof. apply notify_fails_before_sending. vm_compute. reflexivity. Defined.

Lemma notify_greets_by_own_name_witness :
  ∃ mails,
    notify_comment_followers (demo_env true []) (created_row carol_tmp returning_world)
      (world_after_create carol_tmp returning_world)
    = (inr tt, with_outbox (outbox (world_after_create carol_tmp returning_world) ++ mails)
                 (world_after_create carol_tmp returning_world))
    ∧ ∀ m, m ∈ mails →
        ∃ r, r ∈ db (world_after_create carol_tmp returning_world)
             ∧ prior_follower (created_row carol_tmp returning_world) r
             ∧ m = followup_email (demo_env true [])
                     (created_row carol_tmp returning_world) "entry#1"
                     (user_email (fields r), user_name (fields r)).
Proof.
  apply (notify_greets_by_own_name (demo_env true [])). vm_compute. reflexivity.
Defined.

Lemma publish_notifies_prior_followers_witness :
  ∃ mails,
    on_comment_was_posted (demo_env true []) carol_tmp demo_request demo_world
    = (inr (Some (created_row carol_tmp demo_world)),
       with_outbox (outbox demo_world ++ mails) (world_after_create carol_tmp demo_world))
    ∧ mails_to "alice@example.com" mails = 1%nat
    ∧ mails_to "carol@example.com" mails = 0%nat.
Proof.
  destruct (publish_notifies_prior_followers (demo_env true []) carol_tmp
              demo_request demo_world "entry#1")
    as (mails & Hrun & Hone & Hnone);
    [left; by eexists | compute_done | compute_done | vm_compute; reflexivity |].
  exists mails. split; [exact Hrun|].
  split; [apply Hone | apply Hnone]; compute_done.
Defined.

Lemma confirm_notifies_prior_followers_witness :
  ∃ mails,
    confirm (demo_env true [accepting]) demo_request "carol" discarded_template
      demo_world
    = (inr (RedirectResponse (created_row carol_tmp demo_world)),
       with_outbox (outbox demo_world ++ mails)
         (world_after_create carol_tmp
            (world_after_signal carol_tmp demo_request demo_world)))
    ∧ mails_to "alice@example.com" mails = 1%nat
    ∧ mails_to "bob@example.com" mails = 0%nat.
Proof.
  destruct (confirm_notifies_prior_followers (demo_env true [accepting])
              demo_request "carol" discarded_template demo_world carol_tmp
              [("accepting", PyNone)] "entry#1")
    as (mails & Hrun & Hone & Hnone);
    [reflexivity | compute_done | reflexivity | compute_done | compute_done
    | vm_compute; reflexivity |].
  exists mails. split; [exact Hrun|].
  split; [apply Hone | apply Hnone]; compute_done.
Defined.

Lemma held_comment_is_confirmed_witness :
  db (confirm (demo_env true [accepting]) demo_request "alice" discarded_template
        (on_comment_was_posted (demo_env true [accepting]) alice_tmp demo_request
           empty_world).2).2
  = [created_row alice_tmp empty_world].
Proof.
  destruct (held_comment_is_confirmed (demo_env true [accepting]) alice_tmp
              demo_request demo_request discarded_template empty_world "entry#1"
              [("accepting", PyNone)]) as (_ & _ & Hdb);
    [by intros [(u & [=] & _)|[=]] | vm_compute; reflexivity | reflexivity
    | compute_done | reflexivity | compute_done |].
  exact Hdb.
Defined.

Lemma confirm_persists_iff_witness :
  db (confirm (demo_env true [accepting]) demo_request "carol" discarded_template
        demo_world).2 ≠ db demo_world
  ∧ db (confirm (demo_env true [accepting]) demo_request "carol" discarded_template
          demo_world).2 = db demo_world ++ [created_row carol_tmp demo_world].
Proof.
  destruct (confirm_persists_iff (demo_env true [accepting]) demo_request "carol"
              discarded_template demo_world) as [Hiff Hrow].
  split.
  - apply Hiff. exists carol_tmp, [("accepting", PyNone)].
    split; [reflexivity|]. split; [compute_done|]. split; [reflexivity|].
    compute_done.
  - apply (Hrow carol_tmp [("accepting", PyNone)]);
      [reflexivity | compute_done | reflexivity | compute_done].
Defined.

Lemma confirm_link_single_use_witness :
  confirm (demo_env true [accepting]) demo_request "carol" discarded_template
    (confirm (demo_env true [accepting]) demo_request "carol" discarded_template
       demo_world).2
  = (inl Http404,
     (confirm (demo_env true [accepting]) demo_request "carol" discarded_template
        demo_world).2).
Proof.
  apply confirm_link_single_use.
  intros H. apply (f_equal length) in H. vm_compute in H. discriminate.
Defined.

Lemma created_comment_exists_witness :
  _comment_exists (set_is_public true carol_tmp) (_create_comment carol_tmp demo_world).2
  = (inr true, (_create_comment carol_tmp demo_world).2).
Proof. apply created_comment_exists; reflexivity. Defined.

Lemma publish_ignores_request_witness :
  on_comment_was_posted (demo_env true []) carol_tmp demo_request demo_world
  = on_comment_was_posted (demo_env true []) carol_tmp (requested_for "") demo_world.
Proof. apply publish_ignores_request. left. by eexists. Defined.

Lemma held_target_is_comment_target_witness :
  (∃ e, on_comment_was_posted (demo_env true []) alice_tmp demo_request empty_world
        = (inl e, empty_world)
        ∧ notify_comment_followers (demo_env true []) alice_row demo_world
          = (inl e, demo_world))
  ∨ (∃ target mails,
       on_comment_was_posted (demo_env true []) alice_tmp demo_request empty_world
       = (inr None,
          with_outbox (outbox empty_world
                       ++ [confirmation_email (demo_env true []) alice_tmp target])
            empty_world)
       ∧ notify_comment_followers (demo_env true []) alice_row demo_world
         = (inr tt, with_outbox (outbox demo_world ++ mails) demo_world)
       ∧ ∀ m, m ∈ mails →
           ∃ to, m = followup_email (demo_env true []) alice_row target to).
Proof.
  apply (held_target_is_comment_target (demo_env true []) alice_tmp demo_request
           empty_world alice_row demo_world);
    [by intros [(u & [=] & _)|[=]] | vm_compute; reflexivity
    | vm_compute; reflexivity | reflexivity | reflexivity | reflexivity
    | reflexivity].
Defined.

(** ** The claims on the two paths and on the notification, on the demo site *)

Lemma posted_path_choice_witness :
  publish_path_taken (demo_env true []) carol_tmp demo_world
    (on_comment_was_posted (demo_env true []) carol_tmp demo_request demo_world)
  ∧ hold_path_taken (demo_env true []) bob_tmp demo_request demo_world
      (on_comment_was_posted (demo_env true []) bob_tmp demo_request demo_world).
Proof.
  split.
  - apply (posted_path_choice (demo_env true []) carol_tmp demo_request demo_world).
    left. by eexists.
  - apply (posted_path_choice (demo_env true []) bob_tmp demo_request demo_world).
    by intros [(u & [=] & _)|[=]].
Defined.


Lemma notify_one_email_per_follower_witness :
  ∃ mails,
    notify_comment_followers (demo_env true []) (created_row carol_tmp demo_world)
      (world_after_create carol_tmp demo_world)
    = (inr tt, with_outbox (outbox (world_after_create carol_tmp demo_world) ++ mails)
                 (world_after_create carol_tmp demo_world))
    ∧ mails_to "alice@example.com" mails = 1%nat
    ∧ mails_to "bob@example.com" mails = 0%nat
    ∧ mails_to "carol@example.com" mails = 0%nat.
Proof.
  destruct (notify_one_email_per_follower (demo_env true [])
              (created_row carol_tmp demo_world)
              (world_after_create carol_tmp demo_world)) as [Hsent _].
  destruct (Hsent "entry#1") as (mails & Hrun & Hone & Hnone & _);
    [vm_compute; reflexivity|].
  exists mails. split; [exact Hrun|]. split; [|split].
  - apply Hone. compute_done.
  - apply Hnone. compute_done.
  - apply Hnone. compute_done.
Defined.

(** The claim as first stated fails twice on the demo site.  dave has only
    commented on a photo, a different object that shares the primary key of
    the blog entry, and is mailed when carol comments on the entry.  frank
    follows the entry numbered 2, which the site cannot resolve, and is not
    mailed when erin comments on it. *)
Lemma notify_one_email_per_follower_counterexample :
  (¬ object_follower_address (created_row carol_tmp crowded_world)
       (world_after_create carol_tmp crowded_world) "dave@example.com"
   ∧ mails_to "dave@example.com"
       (outbox (notify_comment_followers (demo_env true [])
                  (created_row carol_tmp crowded_world)
                  (world_after_create carol_tmp crowded_world)).2) = 1%nat)
  ∧ (object_follower_address (created_row erin_tmp crowded_world)
       (world_after_create erin_tmp crowded_world) "frank@example.com"
     ∧ follower_address (created_row erin_tmp crowded_world)
         (world_after_create erin_tmp crowded_world) "frank@example.com"
     ∧ notify_comment_followers (demo_env true [])
         (created_row erin_tmp crowded_world)
         (world_after_create erin_tmp crowded_world)
       = (inl DoesNotExist, world_after_create erin_tmp crowded_world)).
Proof.
  split; [split | split; [|split]].
  - compute_done.
  - vm_compute. reflexivity.
  - compute_done.
  - compute_done.
  - vm_compute. reflexivity.
Qed.
